(** * pubmed_paper_fetcher: a shallow embedding of [fetch_papers.py]

    The development follows the source file top to bottom: the Python
    values the program handles after [response.json()], the exceptions it
    can raise, the two network steps, the author classification, and the
    row projection and reporting done by [main].

    Conventions.
    - A Python [str] is a sequence of code points, each a number; no bound
      is put on them, so every text Python can hold is covered, lone
      surrogates included.  Literals between double quotes stand for the
      code points of their ASCII characters.
    - A Python [dict] with string keys is an association list in insertion
      order; a lookup returns the first binding of the key.
    - A call that may raise returns a [result]; code that talks to the
      network, the console or the file system runs in the monad [M], which
      threads the trace of the events performed so far. *)

From Stdlib Require Import ZArith NArith List Bool Lia.
From Stdlib Require Import Strings.Byte.
From Stdlib Require Import Floats.PrimFloat.
From stdpp Require Import base option list.
Import ListNotations.

(** ** Python strings *)

Inductive str : Type :=
| Empty
| Chr (c : N) (s : str).

(** Reading and printing of literals: a literal denotes the code points
    of its characters, and a text is printed as a literal when all its
    code points are ASCII. *)
Fixpoint str_of_bytes (bs : list Byte.byte) : str :=
  match bs with
  | [] => Empty
  | b :: bs' => Chr (Byte.to_N b) (str_of_bytes bs')
  end.

Fixpoint bytes_of_str (s : str) : option (list Byte.byte) :=
  match s with
  | Empty => Some []
  | Chr c s' =>
      if N.ltb c 128 then
        match Byte.of_N c, bytes_of_str s' with
        | Some b, Some bs => Some (b :: bs)
        | _, _ => None
        end
      else None
  end.

Declare Scope str_scope.
Delimit Scope str_scope with str.
Bind Scope str_scope with str.
String Notation str str_of_bytes bytes_of_str : str_scope.

Local Open Scope str_scope.
Local Open Scope list_scope.

(** [s == t] *)
Fixpoint str_eqb (s t : str) : bool :=
  match s, t with
  | Empty, Empty => true
  | Chr c s', Chr d t' => (N.eqb c d && str_eqb s' t')%bool
  | _, _ => false
  end.

(** [s + t] *)
Fixpoint str_app (s t : str) : str :=
  match s with
  | Empty => t
  | Chr c s' => Chr c (str_app s' t)
  end.

Infix "+:+" := str_app (at level 60, right associativity) : str_scope.

(** [len(s)] *)
Fixpoint str_length (s : str) : nat :=
  match s with
  | Empty => 0
  | Chr _ s' => S (str_length s')
  end.

(** ** Python values *)

#[warnings="-register-all"]
Inductive pyval : Type :=
| PNone
| PBool (b : bool)
| PInt (z : Z)
| PFloat (f : float)
| PStr (s : str)
| PList (l : list pyval)
| PDict (d : list (str * pyval)).

Inductive exn : Type :=
| AttributeError
| TypeError
| KeyError
| ValueError
| UnicodeEncodeError
| HTTPError
| JSONDecodeError
| ConnectionError
| OSError.

Inductive result (A : Type) : Type :=
| Ok (a : A)
| Raise (e : exn).

Arguments Ok {A} a.
Arguments Raise {A} e.

#[global] Instance result_ret : MRet result := fun A a => Ok a.

#[global] Instance result_bind : MBind result := fun A B f m =>
  match m with
  | Ok a => f a
  | Raise e => Raise e
  end.

(** [bool(v)]: the truth value Python gives to [v] in [if v] and [v or w]. *)
Definition truthy (v : pyval) : bool :=
  match v with
  | PNone => false
  | PBool b => b
  | PInt z => negb (Z.eqb z 0)
  | PFloat f => negb (PrimFloat.eqb f 0%float)
  | PStr s => negb (str_eqb s "")
  | PList l => negb (Nat.eqb (List.length l) 0)
  | PDict d => negb (Nat.eqb (List.length d) 0)
  end.

(** [isinstance(v, dict)] *)
Definition isinstance_dict (v : pyval) : bool :=
  match v with
  | PDict _ => true
  | _ => false
  end.

Fixpoint dict_lookup (key : str) (d : list (str * pyval)) : option pyval :=
  match d with
  | [] => None
  | (k, v) :: d' => if str_eqb k key then Some v else dict_lookup key d'
  end.

(** [o.get(key, default)]: only a dict has the method. *)
Definition py_get (o : pyval) (key : str) (default : pyval) : result pyval :=
  match o with
  | PDict d => Ok (match dict_lookup key d with Some v => v | None => default end)
  | _ => Raise AttributeError
  end.

(** [o[key]] on a dict. *)
Definition py_getitem (o : pyval) (key : str) : result pyval :=
  match o with
  | PDict d => match dict_lookup key d with Some v => Ok v | None => Raise KeyError end
  | _ => Raise TypeError
  end.

(** The characters of a str, each as a str of length one. *)
Fixpoint chars (s : str) : list pyval :=
  match s with
  | Empty => []
  | Chr c s' => PStr (Chr c Empty) :: chars s'
  end.

(** [iter(v)]: the items a [for] loop or [str.join] visits.  A list yields
    its elements, a str its characters, a dict its keys. *)
Definition py_iter (v : pyval) : result (list pyval) :=
  match v with
  | PList l => Ok l
  | PStr s => Ok (chars s)
  | PDict d => Ok (List.map (fun kv => PStr (fst kv)) d)
  | _ => Raise TypeError
  end.

(** [sep.join(items)] for a list that is already known to hold strings. *)
Fixpoint join (sep : str) (items : list str) : str :=
  match items with
  | [] => ""
  | [s] => s
  | s :: rest => s +:+ sep +:+ join sep rest
  end.

Fixpoint expect_strs (items : list pyval) : result (list str) :=
  match items with
  | [] => Ok []
  | PStr s :: rest => ss ← expect_strs rest; Ok (s :: ss)
  | _ :: _ => Raise TypeError
  end.

(** [sep.join(items)]: every item must be a str. *)
Definition str_join (sep : str) (items : list pyval) : result str :=
  ss ← expect_strs items; Ok (join sep ss).

(** ** The keyword pattern

    [re.search(r"university|college|institute|lab", s, re.IGNORECASE)]:
    the pattern is an alternation of literals, tried in order at each
    position from the left.  Pattern and text are [str], so the engine
    ignores case the Unicode way: it lower-cases the character of the text
    with the simple lower-case mapping and accepts it when the result is
    the lower-cased pattern character or one of the equivalents the
    compiler lists for it. *)

Definition is_ascii_upper (c : N) : bool := (N.leb 65 c && N.leb c 90)%bool.

Definition is_ascii_lower (c : N) : bool := (N.leb 97 c && N.leb c 122)%bool.

(** The code points an ASCII character of a pattern matches under
    [re.IGNORECASE].  A letter matches its lower and upper case; beyond
    ASCII, the code points whose simple lower case is an ASCII letter are
    U+0130 (capital I with dot, to i) and U+212A (Kelvin sign, to k), and
    the equivalents listed for ASCII letters are U+0131 (dotless i, for i)
    and U+017F (long s, for s).  A character that is no letter matches
    itself only.  The pattern of this program is ASCII throughout;
    for a pattern character outside ASCII the class is not worked out and
    is taken to be the character alone. *)
Definition ignorecase_class (p : N) : list N :=
  if is_ascii_upper p || is_ascii_lower p then
    let lo := if is_ascii_upper p then (p + 32)%N else p in
    [lo; (lo - 32)%N] ++
    (if N.eqb lo 105 then [304; 305]
     else if N.eqb lo 115 then [383]
     else if N.eqb lo 107 then [8490]
     else [])%N
  else [p].

(** The character [c] of the text is accepted at the pattern character [p]. *)
Definition char_matches (p c : N) : bool :=
  existsb (N.eqb c) (ignorecase_class p).

(** The literal [lit] matches at the start of [s]. *)
Fixpoint match_here (lit s : str) : bool :=
  match lit, s with
  | Empty, _ => true
  | Chr p lit', Chr c s' => (char_matches p c && match_here lit' s')%bool
  | Chr _ _, Empty => false
  end.

(** The span [(start, end)] of the leftmost match, as [Match.span()] gives it. *)
Fixpoint search_from (alts : list str) (s : str) (pos : nat) : option (nat * nat) :=
  match List.find (fun lit => match_here lit s) alts with
  | Some lit => Some (pos, pos + str_length lit)
  | None =>
      match s with
      | Empty => None
      | Chr _ s' => search_from alts s' (S pos)
      end
  end.

Definition ACADEMIC_PATTERN : list str :=
  ["university"; "college"; "institute"; "lab"].

(** [re.search(pattern, v, re.IGNORECASE)]: anything but a str is a TypeError. *)
Definition re_search (alts : list str) (v : pyval) : result (option (nat * nat)) :=
  match v with
  | PStr s => Ok (search_from alts s 0)
  | _ => Raise TypeError
  end.

(** ** Author classification *)

(** The body of the [for author in authors] loop, with the list being
    built passed along. *)
Fixpoint identify_loop (authors : list pyval) (non_academic : list pyval)
  : result (list pyval) :=
  match authors with
  | [] => Ok non_academic
  | author :: rest =>
      affiliation ← py_get author "affiliation" (PStr "");
      if truthy affiliation then
        m ← re_search ACADEMIC_PATTERN affiliation;
        match m with
        | Some _ => identify_loop rest non_academic
        | None =>
            name ← py_get author "name" PNone;
            identify_loop rest
              (non_academic ++ [PDict [("name", name); ("affiliation", affiliation)]])
        end
      else identify_loop rest non_academic
  end.

Definition identify_non_academic_authors (authors : pyval) : result (list pyval) :=
  items ← py_iter authors;
  identify_loop items [].

(** ** Row projection

    The dictionary [main] appends to [results] for one paper. *)

(** [[f(a) for a in items]] *)
Fixpoint comprehension (f : pyval -> result pyval) (items : list pyval)
  : result (list pyval) :=
  match items with
  | [] => Ok []
  | a :: rest => v ← f a; vs ← comprehension f rest; Ok (v :: vs)
  end.

(** [s or "N/A"] for a str [s] *)
Definition or_NA (s : str) : str :=
  if str_eqb s "" then "N/A" else s.

Definition project_row (paper : pyval) : result pyval :=
  authors ← py_get paper "authors" (PList []);
  non_academic_authors ← identify_non_academic_authors authors;
  uid ← py_get paper "uid" PNone;
  title ← py_get paper "title" (PStr "N/A");
  pubdate ← py_get paper "pubdate" (PStr "N/A");
  names ← comprehension (fun a => py_getitem a "name") non_academic_authors;
  joined_names ← str_join ", " names;
  affiliations ← comprehension (fun a => py_getitem a "affiliation") non_academic_authors;
  joined_affiliations ← str_join ", " affiliations;
  email ← py_get paper "corresponding_author" (PStr "N/A");
  Ok (PDict [("PubmedID", uid);
             ("Title", title);
             ("Publication Date", pubdate);
             ("Non-academic Authors", PStr (or_NA joined_names));
             ("Company Affiliations", PStr (or_NA joined_affiliations));
             ("Corresponding Author Email", email)]).

(** The [for paper in papers] loop of [main]. *)
Fixpoint project_loop (papers : list pyval) (results : list pyval)
  : result (list pyval) :=
  match papers with
  | [] => Ok results
  | paper :: rest =>
      if negb (isinstance_dict paper) then project_loop rest results
      else row ← project_row paper; project_loop rest (results ++ [row])
  end.

(** ** The outside world *)

Record response : Type := {
  status_code : Z;
  json : result pyval   (* what [response.json()] returns or raises *)
}.

(** [Response.raise_for_status()] of the requests library: client and
    server error codes raise, every other status passes. *)
Definition raise_for_status (r : response) : result unit :=
  if (Z.leb 400 (status_code r) && Z.ltb (status_code r) 600)%bool
  then Raise HTTPError else Ok tt.

Inductive event : Type :=
| Get (url : str) (params : list (str * pyval))
| Print (text : pyval)
| Open (filename : str)
| WriteRow (cells : list pyval)
| Close (filename : str).

(** A computation takes the trace so far and returns its outcome with the
    trace extended by the events it performed. *)
Definition M (A : Type) : Type := list event -> result A * list event.

#[global] Instance M_ret : MRet M := fun A a tr => (Ok a, tr).

#[global] Instance M_bind : MBind M := fun A B f m tr =>
  match m tr with
  | (Ok a, tr') => f a tr'
  | (Raise e, tr') => (Raise e, tr')
  end.

Definition lift {A : Type} (r : result A) : M A := fun tr => (r, tr).

Definition perform (e : event) : M unit := fun tr => (Ok tt, tr ++ [e]).

Definition PUBMED_API_URL : str :=
  "https://eutils.ncbi.nlm.nih.gov/entrez/eutils/esearch.fcgi".

Definition DETAILS_API_URL : str :=
  "https://eutils.ncbi.nlm.nih.gov/entrez/eutils/esummary.fcgi".

Definition FIELDNAMES : list str :=
  ["PubmedID"; "Title"; "Publication Date"; "Non-academic Authors";
   "Company Affiliations"; "Corresponding Author Email"].

Record arguments : Type := {
  query : str;
  file : option str   (* [None] when -f/--file is not given *)
}.

(** The [for paper_id in paper_ids] loop of [fetch_paper_details]. *)
Fixpoint details_loop (data : pyval) (paper_ids : list str) (papers : list pyval)
  : result (list pyval) :=
  match paper_ids with
  | [] => Ok papers
  | paper_id :: rest =>
      result_map ← py_get data "result" (PDict []);
      paper_data ← py_get result_map paper_id (PDict []);
      if isinstance_dict paper_data
      then details_loop data rest (papers ++ [paper_data])
      else details_loop data rest papers
  end.

(** [DictWriter.writerow(row)]: a key outside the field names is refused,
    a missing field is written as the empty string. *)
Definition row_cells (row : pyval) : result (list pyval) :=
  match row with
  | PDict d =>
      if forallb (fun kv => existsb (str_eqb (fst kv)) FIELDNAMES) d
      then Ok (List.map (fun k => match dict_lookup k d with
                                  | Some v => v
                                  | None => PStr ""
                                  end) FIELDNAMES)
      else Raise ValueError
  | _ => Raise AttributeError
  end.

(** The output file is opened with [encoding='utf-8']: a text is written
    unless it holds a surrogate code point, which UTF-8 cannot encode. *)
Definition is_surrogate (c : N) : bool := (N.leb 55296 c && N.leb c 57343)%bool.

Fixpoint has_surrogate (s : str) : bool :=
  match s with
  | Empty => false
  | Chr c s' => (is_surrogate c || has_surrogate s')%bool
  end.

(** The text the CSV writer makes of a cell can be encoded.  A str cell is
    written as it is; None is written as the empty text and every other
    value through [str()], which gives ASCII digits and names and, inside
    a list or dict, escapes surrogates. *)
Definition encodable (cell : pyval) : bool :=
  match cell with
  | PStr s => negb (has_surrogate s)
  | _ => true
  end.

Section Program.

(** What the network answers to a GET, and what [open(filename, 'w')]
    does for a name: it returns, or raises what the name and the file
    system make it raise.  Once a file is open the file system is taken
    to accept what is written to it. *)
Variable requests_get : str -> list (str * pyval) -> result response.
Variable open_file : str -> result unit.

Definition http_get (url : str) (params : list (str * pyval)) : M response :=
  fun tr => (requests_get url params, tr ++ [Get url params]).

Definition search_params (q : str) : list (str * pyval) :=
  [("db", PStr "pubmed"); ("term", PStr q); ("retmax", PInt 10);
   ("retmode", PStr "json")].

Definition details_params (ids : str) : list (str * pyval) :=
  [("db", PStr "pubmed"); ("id", PStr ids); ("retmode", PStr "json")].

Definition fetch_paper_ids (q : str) : M pyval :=
  response ← http_get PUBMED_API_URL (search_params q);
  _ ← lift (raise_for_status response);
  data ← lift (json response);
  lift (esearchresult ← py_get data "esearchresult" (PDict []);
        py_get esearchresult "idlist" (PList [])).

Definition fetch_paper_details (paper_ids : pyval) : M (list pyval) :=
  if negb (truthy paper_ids) then mret []
  else
    items ← lift (py_iter paper_ids);
    ids ← lift (expect_strs items);
    response ← http_get DETAILS_API_URL (details_params (join "," ids));
    _ ← lift (raise_for_status response);
    data ← lift (json response);
    lift (details_loop data ids []).

Fixpoint write_rows (results : list pyval) : M unit :=
  match results with
  | [] => mret tt
  | row :: rest =>
      cells ← lift (row_cells row);
      _ ← (if forallb encodable cells then perform (WriteRow cells)
           else lift (Raise UnicodeEncodeError));
      write_rows rest
  end.

(** [with open(...) as file]: the file is closed on every way out. *)
Definition write_to_csv (results : list pyval) (filename : str) : M unit :=
  match open_file filename with
  | Ok _ =>
      fun tr =>
        let '(r, tr') :=
          (_ ← perform (Open filename);
           _ ← perform (WriteRow (List.map PStr FIELDNAMES));
           write_rows results) tr in
        (r, tr' ++ [Close filename])
  | Raise e => lift (Raise e)
  end.

Fixpoint print_rows (results : list pyval) : M unit :=
  match results with
  | [] => mret tt
  | res :: rest => _ ← perform (Print res); print_rows rest
  end.

Definition main (args : arguments) : M unit :=
  paper_ids ← fetch_paper_ids (query args);
  if negb (truthy paper_ids) then perform (Print (PStr "No papers found."))
  else
    papers ← fetch_paper_details paper_ids;
    results ← lift (project_loop papers []);
    match file args with
    | Some f =>
        if negb (str_eqb f "") then
          _ ← write_to_csv results f;
          perform (Print (PStr ("Results saved to " +:+ f)))
        else print_rows results
    | None => print_rows results
    end.

End Program.

(** ** What the specification calls things *)

(** [t] occurs in [s] as a run of consecutive characters. *)
Definition substring (t s : str) : Prop :=
  exists pre post : str, s = pre +:+ t +:+ post.

Fixpoint starts_with (t s : str) : bool :=
  match t, s with
  | Empty, _ => true
  | Chr a t', Chr b s' => (N.eqb a b && starts_with t' s')%bool
  | Chr _ _, Empty => false
  end.

(** [t in s] *)
Fixpoint occurs_in (t s : str) : bool :=
  (starts_with t s ||
   match s with
   | Empty => false
   | Chr _ s' => occurs_in t s'
   end)%bool.

(** The plain reading of "case-insensitively": the letters A to Z are
    identified with a to z, and nothing else is. *)
Definition lower (c : N) : N :=
  if is_ascii_upper c then (c + 32)%N else c.

Fixpoint lower_string (s : str) : str :=
  match s with
  | Empty => Empty
  | Chr c s' => Chr (lower c) (lower_string s')
  end.

(** [s] contains [k] case-insensitively in the plain reading. *)
Definition contains_ignoring_case (k s : str) : Prop :=
  substring (lower_string k) (lower_string s).

(** The affiliation holds one of the keywords in the plain reading. *)
Definition looks_academic (s : str) : Prop :=
  exists k : str, In k ACADEMIC_PATTERN /\ contains_ignoring_case k s.

(** The reading of "case-insensitively" under which the rule is stated
    exactly: besides A to Z, the capital I with dot (U+0130) and the
    dotless i (U+0131) count as i, the long s (U+017F) as s and the
    Kelvin sign (U+212A) as k. *)
Definition ignorecase_fold (c : N) : N :=
  if is_ascii_upper c then (c + 32)%N
  else if (N.eqb c 304 || N.eqb c 305)%bool then 105%N
  else if N.eqb c 383 then 115%N
  else if N.eqb c 8490 then 107%N
  else c.

Fixpoint fold_string (s : str) : str :=
  match s with
  | Empty => Empty
  | Chr c s' => Chr (ignorecase_fold c) (fold_string s')
  end.

Definition contains_folded (k s : str) : Prop :=
  substring (fold_string k) (fold_string s).

(** The affiliation holds one of the keywords up to that folding. *)
Definition matches_keyword (s : str) : Prop :=
  exists k : str, In k ACADEMIC_PATTERN /\ contains_folded k s.

(** A text of ASCII characters. *)
Fixpoint is_ascii (s : str) : bool :=
  match s with
  | Empty => true
  | Chr c s' => (N.ltb c 128 && is_ascii s')%bool
  end.

(** The record the classification emits for a flagged author. *)
Definition flagged (name : pyval) (affiliation : str) : pyval :=
  PDict [("name", name); ("affiliation", PStr affiliation)].

(** [author.get("name")] on an author's key-value pairs. *)
Definition name_of (d : list (str * pyval)) : pyval :=
  match dict_lookup "name" d with
  | Some v => v
  | None => PNone
  end.

(** The code points [str.isspace] accepts. *)
Definition is_space (c : N) : bool :=
  ((N.leb 9 c && N.leb c 13) || (N.leb 28 c && N.leb c 32)
   || N.eqb c 133 || N.eqb c 160 || N.eqb c 5760
   || (N.leb 8192 c && N.leb c 8202) || N.eqb c 8232 || N.eqb c 8233
   || N.eqb c 8239 || N.eqb c 8287 || N.eqb c 12288)%bool.

(** A text made of whitespace only (the empty text included). *)
Fixpoint whitespace_only (s : str) : bool :=
  match s with
  | Empty => true
  | Chr c s' => (is_space c && whitespace_only s')%bool
  end.

(** An author record of the data model: a dictionary whose affiliation is
    absent, null or a string.  The name is not constrained. *)
Definition is_author_record (a : pyval) : bool :=
  match a with
  | PDict d =>
      match dict_lookup "affiliation" d with
      | None | Some PNone | Some (PStr _) => true
      | Some _ => false
      end
  | _ => false
  end.

(** The authors the rule flags: a non-empty affiliation text in which the
    keyword search finds nothing. *)
Definition is_non_academic (a : pyval) : bool :=
  match a with
  | PDict d =>
      match dict_lookup "affiliation" d with
      | Some (PStr s) =>
          (negb (str_eqb s "") &&
           match search_from ACADEMIC_PATTERN s 0 with Some _ => false | None => true end)%bool
      | _ => false
      end
  | _ => false
  end.

(** The output record of a flagged author. *)
Definition record_of (a : pyval) : pyval :=
  match a with
  | PDict d =>
      PDict [("name", name_of d);
             ("affiliation", match dict_lookup "affiliation" d with
                             | Some v => v
                             | None => PStr ""
                             end)]
  | _ => a
  end.

(** What detail retrieval returns for one id, given the response's result
    map: the entry if it is a dictionary, nothing if it is anything else,
    and the default [{}] of the lookup if the id has no entry. *)
Definition record_for (result_map : list (str * pyval)) (id : str) : option pyval :=
  match dict_lookup id result_map with
  | None => Some (PDict [])
  | Some (PDict r) => Some (PDict r)
  | Some _ => None
  end.

(** The result map of a response body: absent counts as empty. *)
Definition result_map_of (body : list (str * pyval)) : option (list (str * pyval)) :=
  match dict_lookup "result" body with
  | None => Some []
  | Some (PDict rm) => Some rm
  | Some _ => None
  end.

(** The value found by following [esearchresult] and then [idlist] in a
    JSON body, if the path is there. *)
Definition idlist_path (data : pyval) : option pyval :=
  match data with
  | PDict body =>
      match dict_lookup "esearchresult" body with
      | Some (PDict er) => dict_lookup "idlist" er
      | _ => None
      end
  | _ => None
  end.

(** The bodies on which the two defaulted lookups of the search step fall
    back to the empty list: [esearchresult] is absent, or is an object
    without [idlist]. *)
Definition defaults_to_no_ids (body : list (str * pyval)) : Prop :=
  dict_lookup "esearchresult" body = None \/
  exists er, dict_lookup "esearchresult" body = Some (PDict er) /\
             dict_lookup "idlist" er = None.

(** A server that answers every request with the same status and body. *)
Definition constant_server (status : Z) (body : pyval)
  : str -> list (str * pyval) -> result response :=
  fun _ _ => Ok {| status_code := status; json := Ok body |}.

(** [paper.get("authors", [])] on a paper's key-value pairs. *)
Definition authors_of (d : list (str * pyval)) : pyval :=
  match dict_lookup "authors" d with
  | Some v => v
  | None => PList []
  end.

Definition is_str (v : pyval) : bool :=
  match v with
  | PStr _ => true
  | _ => false
  end.

(** The record carries a string under ["name"]. *)
Definition has_str_name (a : pyval) : bool :=
  match py_getitem a "name" with
  | Ok v => is_str v
  | Raise _ => false
  end.

(** A record as the classification emits it: a name of any kind and a
    non-empty affiliation text. *)
Definition is_flagged (r : pyval) : Prop :=
  exists (n : pyval) (a : str), r = flagged n a /\ a <> "".

(** The row [main] builds from a paper and the two joined texts. *)
Definition report_row (d : list (str * pyval)) (names affiliations : str) : pyval :=
  PDict [("PubmedID", match dict_lookup "uid" d with Some v => v | None => PNone end);
         ("Title", match dict_lookup "title" d with Some v => v | None => PStr "N/A" end);
         ("Publication Date",
          match dict_lookup "pubdate" d with Some v => v | None => PStr "N/A" end);
         ("Non-academic Authors", PStr names);
         ("Company Affiliations", PStr affiliations);
         ("Corresponding Author Email",
          match dict_lookup "corresponding_author" d with
          | Some v => v
          | None => PStr "N/A"
          end)].

(** The events that are network requests. *)
Definition is_request (e : event) : bool :=
  match e with
  | Get _ _ => true
  | _ => false
  end.

(** The events that write a line of the output file. *)
Definition is_row_write (e : event) : bool :=
  match e with
  | WriteRow _ => true
  | _ => false
  end.

(** An author as the summary endpoint lists it: a dictionary without an
    affiliation. *)
Definition lacks_affiliation (a : pyval) : bool :=
  match a with
  | PDict d => match dict_lookup "affiliation" d with None => true | Some _ => false end
  | _ => false
  end.

(** A server that answers the search endpoint with one body and every
    other address with another, both with status 200. *)
Definition routing_server (search details : pyval)
  : str -> list (str * pyval) -> result response :=
  fun url _ =>
    Ok {| status_code := 200;
          json := Ok (if str_eqb url PUBMED_API_URL then search else details) |}.


(** * Properties *)

(** ** Strings and the keyword search *)

Lemma str_eqb_eq (s t : str) : str_eqb s t = true <-> s = t.
Proof.
  revert t. induction s as [|c s IH]; intros [|d t]; simpl;
    try (split; [discriminate | discriminate]); [tauto|].
  rewrite andb_true_iff, N.eqb_eq, IH. split.
  - now intros [-> ->].
  - now intros [= -> ->].
Qed.

Lemma string_eqb_empty (s : str) : s <> "" -> str_eqb s "" = false.
Proof.
  intros H. destruct (str_eqb s "") eqn:E; [|reflexivity].
  apply str_eqb_eq in E. contradiction.
Qed.

Ltac no_if t :=
  lazymatch t with
  | context [if _ then _ else _] => fail
  | _ => idtac
  end.

(** Case analysis on the comparisons of code points in the goal, innermost
    first, dropping the cases arithmetic rules out. *)
Ltac by_cases_on_code_points :=
  repeat (cbn [andb orb existsb app negb];
          match goal with
          | |- context [N.leb ?a ?b] =>
              no_if a; no_if b; destruct (N.leb_spec a b); try (exfalso; lia)
          | |- context [N.ltb ?a ?b] =>
              no_if a; no_if b; destruct (N.ltb_spec a b); try (exfalso; lia)
          | |- context [N.eqb ?a ?b] =>
              no_if a; no_if b; destruct (N.eqb_spec a b); try (exfalso; lia)
          end);
  cbn [andb orb existsb app negb].

(** The engine's character test and the folding say the same of an ASCII
    pattern character. *)
Lemma char_matches_fold (p c : N) :
  N.ltb p 128 = true ->
  (char_matches p c = true <-> ignorecase_fold c = ignorecase_fold p).
Proof.
  intros Hp. apply N.ltb_lt in Hp.
  unfold char_matches, ignorecase_class, ignorecase_fold, is_ascii_upper, is_ascii_lower.
  by_cases_on_code_points; split; intros; try reflexivity; try discriminate; try lia.
Qed.

(** [match_here] decides whether the folded literal is a prefix of the
    folded text. *)
Lemma match_here_prefix (lit s : str) :
  is_ascii lit = true ->
  (match_here lit s = true <->
   exists post : str, fold_string s = fold_string lit +:+ post).
Proof.
  revert s. induction lit as [|p lit IH]; intros s Hlit; simpl.
  - split; [intros _; now exists (fold_string s) | reflexivity].
  - simpl in Hlit. apply andb_true_iff in Hlit as [Hp Hlit].
    destruct s as [|c s]; simpl.
    + split; [discriminate | intros [post H]; discriminate].
    + rewrite andb_true_iff, (char_matches_fold p c Hp), (IH s Hlit). split.
      * intros [Hc [post Hs]]. exists post. now rewrite Hc, Hs.
      * intros [post H]. injection H as Hc Hs. split; [exact Hc | now exists post].
Qed.

Lemma substring_cons (t : str) (c : N) (s : str) :
  substring t (Chr c s) <->
  (exists post : str, Chr c s = t +:+ post) \/ substring t s.
Proof.
  split.
  - intros [pre [post H]]. destruct pre as [|c' pre]; simpl in H.
    + left. now exists post.
    + right. injection H as _ H. now exists pre, post.
  - intros [[post H] | [pre [post H]]].
    + now exists "", post.
    + exists (Chr c pre), post. simpl. now rewrite H.
Qed.

Lemma substring_empty (t : str) :
  substring t "" <-> exists post : str, "" = t +:+ post.
Proof.
  split.
  - intros [pre [post H]]. destruct pre; [now exists post | discriminate].
  - intros [post H]. now exists "", post.
Qed.

(** The search finds nothing exactly when no alternative occurs anywhere
    in the text, both folded. *)
Lemma search_from_None (alts : list str) (s : str) (pos : nat) :
  forallb is_ascii alts = true ->
  (search_from alts s pos = None <->
   forall k : str, In k alts -> ~ contains_folded k s).
Proof.
  intros Halts.
  assert (Hascii : forall k, In k alts -> is_ascii k = true).
  { intros k Hin. exact (proj1 (forallb_forall _ _) Halts k Hin). }
  unfold contains_folded.
  revert pos. induction s as [|c s IH]; intros pos; simpl.
  - destruct (List.find _ alts) as [lit|] eqn:F.
    + split; [discriminate|]. intros H. exfalso.
      apply List.find_some in F as [Hin Hm].
      apply (H lit Hin). apply substring_empty.
      apply (match_here_prefix lit "" (Hascii lit Hin)) in Hm. exact Hm.
    + split; [|reflexivity]. intros _ k Hin Hsub.
      apply substring_empty in Hsub.
      pose proof (List.find_none _ _ F k Hin) as Hm. simpl in Hm.
      apply (proj2 (match_here_prefix k "" (Hascii k Hin))) in Hsub. congruence.
  - destruct (List.find _ alts) as [lit|] eqn:F.
    + split; [discriminate|]. intros H. exfalso.
      apply List.find_some in F as [Hin Hm].
      apply (H lit Hin).
      change (Chr (ignorecase_fold c) (fold_string s)) with (fold_string (Chr c s)).
      apply (match_here_prefix lit (Chr c s) (Hascii lit Hin)) in Hm as [post Hm].
      exists "", post. exact Hm.
    + rewrite IH. split.
      * intros H k Hin Hsub. apply substring_cons in Hsub as [Hpre | Hsub].
        -- pose proof (List.find_none _ _ F k Hin) as Hm. simpl in Hm.
           apply (proj2 (match_here_prefix k (Chr c s) (Hascii k Hin))) in Hpre. congruence.
        -- now apply (H k Hin).
      * intros H k Hin Hsub. apply (H k Hin). apply substring_cons. now right.
Qed.

Lemma search_academic (s : str) :
  (matches_keyword s -> exists span, search_from ACADEMIC_PATTERN s 0 = Some span) /\
  (~ matches_keyword s -> search_from ACADEMIC_PATTERN s 0 = None).
Proof.
  split.
  - intros [k [Hin Hk]].
    destruct (search_from ACADEMIC_PATTERN s 0) as [span|] eqn:E; [now exists span|].
    exfalso. exact (proj1 (search_from_None ACADEMIC_PATTERN s 0 eq_refl) E k Hin Hk).
  - intros H. apply (search_from_None ACADEMIC_PATTERN s 0 eq_refl).
    intros k Hin Hk. apply H. now exists k.
Qed.

Lemma fold_string_app (a b : str) :
  fold_string (a +:+ b) = fold_string a +:+ fold_string b.
Proof.
  induction a as [|c a IH]; simpl; [reflexivity | now rewrite IH].
Qed.

Lemma fold_lower (c : N) : ignorecase_fold (lower c) = ignorecase_fold c.
Proof.
  unfold ignorecase_fold, lower, is_ascii_upper.
  by_cases_on_code_points; try reflexivity; try lia.
Qed.

Lemma fold_lower_string (s : str) : fold_string (lower_string s) = fold_string s.
Proof.
  induction s as [|c s IH]; simpl; [reflexivity | now rewrite fold_lower, IH].
Qed.

(** A keyword found in the plain reading is found up to the folding. *)
Lemma looks_academic_matches (s : str) : looks_academic s -> matches_keyword s.
Proof.
  intros [k [Hin [pre [post H]]]]. exists k. split; [exact Hin|].
  exists (fold_string pre), (fold_string post).
  rewrite <- (fold_lower_string s), H, !fold_string_app.
  now rewrite (fold_lower_string k).
Qed.

Lemma starts_with_prefix (t s : str) :
  starts_with t s = true <-> exists post : str, s = t +:+ post.
Proof.
  revert s. induction t as [|a t IH]; intros s; simpl.
  - split; [intros _; now exists s | reflexivity].
  - destruct s as [|b s]; simpl.
    + split; [discriminate | intros [post H]; discriminate].
    + rewrite andb_true_iff, N.eqb_eq, IH. split.
      * intros [-> [post ->]]. now exists post.
      * intros [post H]. injection H as -> ->. split; [reflexivity | now exists post].
Qed.

Lemma occurs_in_substring (t s : str) : occurs_in t s = true <-> substring t s.
Proof.
  induction s as [|c s IH]; simpl.
  - rewrite orb_false_r, starts_with_prefix. symmetry. apply substring_empty.
  - rewrite orb_true_iff, starts_with_prefix, IH. symmetry. apply substring_cons.
Qed.

(** ** Author classification *)

(** The loop only ever appends: what it was handed stays in front. *)
Lemma identify_loop_acc (authors acc : list pyval) :
  identify_loop authors acc = (out ← identify_loop authors []; Ok (acc ++ out)).
Proof.
  revert acc. induction authors as [|author rest IH]; intros acc; simpl.
  - now rewrite app_nil_r.
  - destruct (py_get author "affiliation" (PStr "")) as [affiliation|e]; simpl; [|reflexivity].
    destruct (truthy affiliation); [|apply IH].
    destruct (re_search ACADEMIC_PATTERN affiliation) as [[span|]|e]; simpl;
      [apply IH | | reflexivity].
    destruct (py_get author "name" PNone) as [name|e]; simpl; [|reflexivity].
    rewrite IH. rewrite (IH [_]).
    destruct (identify_loop rest []) as [out|e]; simpl; [|reflexivity].
    now rewrite <- app_assoc.
Qed.

Lemma identify_loop_app (before after acc : list pyval) :
  identify_loop (before ++ after) acc =
  (out ← identify_loop before acc; identify_loop after out).
Proof.
  revert acc. induction before as [|author rest IH]; intros acc; simpl; [reflexivity|].
  destruct (py_get author "affiliation" (PStr "")) as [affiliation|e]; simpl; [|reflexivity].
  destruct (truthy affiliation); [|apply IH].
  destruct (re_search ACADEMIC_PATTERN affiliation) as [[span|]|e]; simpl;
    [apply IH | | reflexivity].
  destruct (py_get author "name" PNone) as [name|e]; simpl; [reflexivity || apply IH | reflexivity].
Qed.

(** One author between two stretches that classify without error: the
    output is the outputs of the stretches with the author's own
    contribution in between. *)
Lemma identify_around (before after o1 o2 mid : list pyval) (author : pyval) :
  identify_non_academic_authors (PList before) = Ok o1 ->
  identify_non_academic_authors (PList after) = Ok o2 ->
  identify_loop [author] [] = Ok mid ->
  identify_non_academic_authors (PList (before ++ author :: after)) = Ok (o1 ++ mid ++ o2).
Proof.
  unfold identify_non_academic_authors. cbn [py_iter mbind result_bind].
  intros H1 H2 Hm.
  rewrite identify_loop_app, H1. cbn [mbind result_bind].
  change (author :: after) with ([author] ++ after).
  rewrite identify_loop_app, (identify_loop_acc [author]), Hm. cbn [mbind result_bind].
  rewrite identify_loop_acc, H2. cbn [mbind result_bind]. now rewrite app_assoc.
Qed.


(** C1, as the code has it.  An author whose affiliation is a non-empty
    string, standing anywhere in a list whose other authors classify
    without error: if the affiliation contains one of university, college,
    institute, lab up to the letter equivalence of the case-insensitive
    search (a letter of a keyword stands for its lower and its upper case,
    and besides i stands for U+0130 and U+0131 and s for U+017F), the
    author adds nothing to the output; if it contains none of them in that
    sense, the author adds exactly one record, holding the name as
    [author.get("name")] gives it and the affiliation text unchanged. *)
Theorem classification_by_keyword
    (before after o1 o2 : list pyval) (d : list (str * pyval)) (aff : str) :
  dict_lookup "affiliation" d = Some (PStr aff) ->
  aff <> "" ->
  identify_non_academic_authors (PList before) = Ok o1 ->
  identify_non_academic_authors (PList after) = Ok o2 ->
  (matches_keyword aff ->
   identify_non_academic_authors (PList (before ++ PDict d :: after)) = Ok (o1 ++ o2)) /\
  (~ matches_keyword aff ->
   identify_non_academic_authors (PList (before ++ PDict d :: after))
   = Ok (o1 ++ [flagged (name_of d) aff] ++ o2)).
Proof.
  intros Hd Hne H1 H2. split; intros Hk.
  - apply (identify_around before after o1 o2 [] (PDict d) H1 H2).
    simpl. rewrite Hd. simpl. rewrite (string_eqb_empty aff Hne). simpl.
    destruct (proj1 (search_academic aff) Hk) as [span Hs]. now rewrite Hs.
  - apply (identify_around before after o1 o2 [flagged (name_of d) aff] (PDict d) H1 H2).
    simpl. rewrite Hd. simpl. rewrite (string_eqb_empty aff Hne). simpl.
    now rewrite (proj2 (search_academic aff) Hk).
Qed.

Lemma classification_by_keyword_witness :
  identify_non_academic_authors
    (PList [PDict [("name", PStr "A"); ("affiliation", PStr "Dept of X, Harvard University")];
            PDict [("name", PStr "B"); ("affiliation", PStr "Acme Biotech Inc.")]])
  = Ok [flagged (PStr "B") "Acme Biotech Inc."] /\
  identify_non_academic_authors
    (PList [PDict [("name", PStr "B"); ("affiliation", PStr "Acme Biotech Inc.")];
            PDict [("name", PStr "C"); ("affiliation", PStr (Chr 383 "ome Colleges"))]])
  = Ok [flagged (PStr "B") "Acme Biotech Inc."] /\
  identify_non_academic_authors
    (PList [PDict [("name", PStr "D"); ("affiliation", PStr (Chr 304 "nstitute of X"))]])
  = Ok [].
Proof.
  split; [|split].
  - apply (proj2 (classification_by_keyword
             [PDict [("name", PStr "A"); ("affiliation", PStr "Dept of X, Harvard University")]]
             [] [] []
             [("name", PStr "B"); ("affiliation", PStr "Acme Biotech Inc.")]
             "Acme Biotech Inc." eq_refl ltac:(discriminate) eq_refl eq_refl)).
    intros [k [Hin Hk]].
    exact (proj1 (search_from_None ACADEMIC_PATTERN "Acme Biotech Inc." 0 eq_refl)
                 eq_refl k Hin Hk).
  - apply (proj1 (classification_by_keyword
             [PDict [("name", PStr "B"); ("affiliation", PStr "Acme Biotech Inc.")]]
             [] [flagged (PStr "B") "Acme Biotech Inc."] []
             [("name", PStr "C"); ("affiliation", PStr (Chr 383 "ome Colleges"))]
             (Chr 383 "ome Colleges") eq_refl ltac:(discriminate) eq_refl eq_refl)).
    exists "college". split; [simpl; tauto|]. now exists "some ", "s".
  - apply (proj1 (classification_by_keyword
             [] [] [] []
             [("name", PStr "D"); ("affiliation", PStr (Chr 304 "nstitute of X"))]
             (Chr 304 "nstitute of X") eq_refl ltac:(discriminate) eq_refl eq_refl)).
    exists "institute". split; [simpl; tauto|]. now exists "", " of x".
Defined.

(** C1 as stated fails on a text beyond ASCII.  In the plain reading the
    affiliation below, a capital I with dot (U+0130) followed by
    "nstitute of X", contains none of the keywords: U+0130 is not a case
    variant of i for [str.lower], [str.upper] or [str.casefold] either
    (its lower case is i followed by a combining dot).  Yet the search
    accepts it at the i of institute, and the author is left out. *)
Lemma capital_I_with_dot_is_excluded :
  Chr 304 "nstitute of X" <> "" /\
  ~ looks_academic (Chr 304 "nstitute of X") /\
  identify_non_academic_authors
    (PList [PDict [("name", PStr "A"); ("affiliation", PStr (Chr 304 "nstitute of X"))]])
  = Ok [].
Proof.
  repeat split; [discriminate|].
  intros [k [Hin Hk]]. apply occurs_in_substring in Hk.
  simpl in Hin. destruct Hin as [<- | [<- | [<- | [<- | []]]]]; discriminate Hk.
Qed.

(** C2, as the code has it.  An author whose affiliation is absent, null
    or the empty string adds nothing to the output, whatever the name. *)
Theorem no_affiliation_excluded
    (before after o1 o2 : list pyval) (d : list (str * pyval)) :
  dict_lookup "affiliation" d = None \/
  dict_lookup "affiliation" d = Some PNone \/
  dict_lookup "affiliation" d = Some (PStr "") ->
  identify_non_academic_authors (PList before) = Ok o1 ->
  identify_non_academic_authors (PList after) = Ok o2 ->
  identify_non_academic_authors (PList (before ++ PDict d :: after)) = Ok (o1 ++ o2).
Proof.
  intros Hd H1 H2.
  apply (identify_around before after o1 o2 [] (PDict d) H1 H2).
  simpl. destruct Hd as [Hd | [Hd | Hd]]; now rewrite Hd.
Qed.

Lemma no_affiliation_excluded_witness :
  identify_non_academic_authors
    (PList [PDict [("name", PStr "B"); ("affiliation", PStr "Acme Biotech Inc.")];
            PDict [("name", PStr "N"); ("affiliation", PStr "")]])
  = Ok [flagged (PStr "B") "Acme Biotech Inc."].
Proof.
  exact (no_affiliation_excluded
           [PDict [("name", PStr "B"); ("affiliation", PStr "Acme Biotech Inc.")]]
           [] [flagged (PStr "B") "Acme Biotech Inc."] []
           [("name", PStr "N"); ("affiliation", PStr "")]
           (or_intror (or_intror eq_refl)) eq_refl eq_refl).
Defined.

(** C2 as stated fails on a whitespace-only affiliation: a single blank is
    a non-empty text without keyword, and its author is flagged. *)
Lemma whitespace_affiliation_is_flagged :
  whitespace_only " " = true /\
  identify_non_academic_authors
    (PList [PDict [("name", PStr "X"); ("affiliation", PStr " ")]])
  = Ok [flagged (PStr "X") " "].
Proof. split; reflexivity. Qed.

Lemma sublist_filter_bool (f : pyval -> bool) (l : list pyval) :
  sublist (List.filter f l) l.
Proof.
  induction l as [|a l IH]; simpl; [constructor|].
  destruct (f a); now constructor.
Qed.

Lemma identify_loop_records (authors : list pyval) :
  forallb is_author_record authors = true ->
  identify_loop authors []
  = Ok (List.map record_of (List.filter is_non_academic authors)).
Proof.
  induction authors as [|a rest IH]; [reflexivity|].
  cbn [forallb]. rewrite andb_true_iff. intros [Ha Hrest].
  specialize (IH Hrest).
  destruct a as [| | | | |l|d]; try discriminate Ha.
  cbn [identify_loop py_get is_non_academic List.filter is_author_record] in *.
  destruct (dict_lookup "affiliation" d) as [[| | | |s| |]|] eqn:Hd;
    try discriminate Ha; cbn; try exact IH.
  destruct (str_eqb s ""); cbn; [exact IH|].
  destruct (search_from ACADEMIC_PATTERN s 0); cbn; [exact IH|].
  rewrite identify_loop_acc, IH. cbn. unfold name_of. now rewrite Hd.
Qed.

(** C5.  On a list of author records the classification returns, and its
    output is the output records of a subsequence of the input, in input
    order: the flagged authors, each in the place it had among them. *)
Theorem classification_is_stable (authors : list pyval) :
  forallb is_author_record authors = true ->
  identify_non_academic_authors (PList authors)
  = Ok (List.map record_of (List.filter is_non_academic authors)) /\
  sublist (List.filter is_non_academic authors) authors.
Proof.
  intros H. split; [exact (identify_loop_records authors H) | apply sublist_filter_bool].
Qed.

Lemma classification_is_stable_witness :
  identify_non_academic_authors
    (PList [PDict [("name", PStr "B"); ("affiliation", PStr "Acme")];
            PDict [("name", PStr "A"); ("affiliation", PStr "Some College")];
            PDict [("name", PStr "C"); ("affiliation", PStr "Pfizer")]])
  = Ok [flagged (PStr "B") "Acme"; flagged (PStr "C") "Pfizer"].
Proof.
  exact (proj1 (classification_is_stable
           [PDict [("name", PStr "B"); ("affiliation", PStr "Acme")];
            PDict [("name", PStr "A"); ("affiliation", PStr "Some College")];
            PDict [("name", PStr "C"); ("affiliation", PStr "Pfizer")]] eq_refl)).
Defined.

(** ** The network steps *)

Lemma expect_strs_map_PStr (ids : list str) :
  expect_strs (List.map PStr ids) = Ok ids.
Proof.
  induction ids as [|i ids IH]; [reflexivity|]. simpl. now rewrite IH.
Qed.

Lemma details_loop_records
    (body rm : list (str * pyval)) (ids : list str) (papers : list pyval) :
  result_map_of body = Some rm ->
  details_loop (PDict body) ids papers = Ok (papers ++ omap (record_for rm) ids).
Proof.
  unfold result_map_of. intros Hrm.
  revert papers. induction ids as [|i ids IH]; intros papers.
  - simpl. now rewrite app_nil_r.
  - cbn [details_loop py_get mbind result_bind omap list_omap].
    unfold record_for at 1.
    destruct (dict_lookup "result" body) as [[| | | | | |rm']|]; try discriminate Hrm;
      injection Hrm as <-; cbn [py_get dict_lookup mbind result_bind].
    + destruct (dict_lookup i rm') as [[| | | | | |r]|]; cbn [isinstance_dict];
        rewrite IH; try reflexivity; now rewrite <- app_assoc.
    + rewrite IH. now rewrite <- app_assoc.
Qed.

(** C3, as the code has it.  For a non-empty list of ids and a response
    that passes the status check and carries a JSON object whose result
    map is an object (or is absent), detail retrieval makes its one call
    and returns, in the order of the ids, the entry of every id whose
    entry is a dictionary and an empty record for every id that has no
    entry; an id whose entry is not a dictionary is left out. *)
Theorem details_in_id_order
    (requests_get : str -> list (str * pyval) -> result response)
    (ids : list str) (resp : response) (body rm : list (str * pyval))
    (tr : list event) :
  ids <> [] ->
  requests_get DETAILS_API_URL (details_params (join "," ids)) = Ok resp ->
  raise_for_status resp = Ok tt ->
  json resp = Ok (PDict body) ->
  result_map_of body = Some rm ->
  fetch_paper_details requests_get (PList (List.map PStr ids)) tr
  = (Ok (omap (record_for rm) ids),
     tr ++ [Get DETAILS_API_URL (details_params (join "," ids))]).
Proof.
  intros Hne Hget Hst Hjs Hrm.
  unfold fetch_paper_details.
  replace (truthy (PList (List.map PStr ids))) with true
    by (destruct ids; [contradiction | reflexivity]).
  cbn [negb]. unfold mbind, M_bind, lift, http_get. cbn [py_iter].
  rewrite (expect_strs_map_PStr ids), Hget, Hst, Hjs.
  now rewrite (details_loop_records body rm ids [] Hrm).
Qed.

Lemma details_in_id_order_witness :
  fetch_paper_details
    (constant_server 200
       (PDict [("result",
                PDict [("uids", PList [PStr "1"; PStr "2"]);
                       ("1", PDict [("uid", PStr "1"); ("title", PStr "T")]);
                       ("2", PStr "malformed")])]))
    (PList [PStr "1"; PStr "2"]) []
  = (Ok [PDict [("uid", PStr "1"); ("title", PStr "T")]],
     [Get DETAILS_API_URL (details_params "1,2")]).
Proof.
  exact (details_in_id_order
           (constant_server 200
              (PDict [("result",
                       PDict [("uids", PList [PStr "1"; PStr "2"]);
                              ("1", PDict [("uid", PStr "1"); ("title", PStr "T")]);
                              ("2", PStr "malformed")])]))
           ["1"; "2"] _ _ _ [] ltac:(discriminate) eq_refl eq_refl eq_refl eq_refl).
Defined.

(** C3 as stated fails on an id the response has no entry for: the lookup
    falls back to [{}], which is a dictionary, so the id is not left out
    but answered with an empty record. *)
Lemma missing_id_yields_empty_record :
  dict_lookup "7" [("uids", PList [])] = None /\
  fetch_paper_details
    (constant_server 200 (PDict [("result", PDict [("uids", PList [])])]))
    (PList [PStr "7"]) []
  = (Ok [PDict []], [Get DETAILS_API_URL (details_params "7")]).
Proof. split; reflexivity. Qed.

(** C6.  With an empty list of ids detail retrieval returns the empty
    list and leaves the trace as it found it: no request is made,
    whatever the network would have answered. *)
Theorem no_ids_no_request
    (requests_get : str -> list (str * pyval) -> result response)
    (tr : list event) :
  fetch_paper_details requests_get (PList []) tr = (Ok [], tr).
Proof. reflexivity. Qed.

(** C7, as the code has it.  When the search endpoint answers with a
    client or server error status (400 to 599) the search step raises
    HTTPError.  When it answers with a success status and a JSON object in
    which [esearchresult] is absent, or is an object without [idlist], the
    search step returns the empty list.  Either way exactly one request
    was made. *)
Theorem search_status_and_default
    (requests_get : str -> list (str * pyval) -> result response)
    (q : str) (resp : response) (tr : list event) :
  requests_get PUBMED_API_URL (search_params q) = Ok resp ->
  ((400 <= status_code resp < 600)%Z ->
   fetch_paper_ids requests_get q tr
   = (Raise HTTPError, tr ++ [Get PUBMED_API_URL (search_params q)])) /\
  ((200 <= status_code resp < 300)%Z ->
   forall body, json resp = Ok (PDict body) -> defaults_to_no_ids body ->
   fetch_paper_ids requests_get q tr
   = (Ok (PList []), tr ++ [Get PUBMED_API_URL (search_params q)])).
Proof.
  intros Hget. unfold fetch_paper_ids, mbind, M_bind, lift, http_get, raise_for_status.
  rewrite Hget. split.
  - intros [Hlo Hhi].
    apply Z.leb_le in Hlo. apply Z.ltb_lt in Hhi. now rewrite Hlo, Hhi.
  - intros [Hlo Hhi] body Hjs Hbody.
    replace (Z.ltb (status_code resp) 600 ) with true by (symmetry; apply Z.ltb_lt; lia).
    replace (Z.leb 400 (status_code resp)) with false by (symmetry; apply Z.leb_gt; lia).
    cbn [andb]. rewrite Hjs. cbn [py_get result_bind].
    destruct Hbody as [Habs | [er [Her Hid]]].
    + now rewrite Habs.
    + rewrite Her. cbn [py_get]. now rewrite Hid.
Qed.

Lemma search_status_and_default_witness :
  fetch_paper_ids (constant_server 503 (PStr "Service Unavailable")) "cancer" []
  = (Raise HTTPError, [Get PUBMED_API_URL (search_params "cancer")]) /\
  fetch_paper_ids
    (constant_server 200 (PDict [("esearchresult", PDict [("ERROR", PStr "Empty term")])]))
    "cancer" []
  = (Ok (PList []), [Get PUBMED_API_URL (search_params "cancer")]).
Proof.
  split.
  - apply (proj1 (search_status_and_default
                    (constant_server 503 (PStr "Service Unavailable"))
                    "cancer" _ [] eq_refl)).
    simpl. lia.
  - apply (proj2 (search_status_and_default
                    (constant_server 200
                       (PDict [("esearchresult", PDict [("ERROR", PStr "Empty term")])]))
                    "cancer" _ [] eq_refl) ltac:(simpl; lia)
                 [("esearchresult", PDict [("ERROR", PStr "Empty term")])] eq_refl).
    right. now exists [("ERROR", PStr "Empty term")].
Defined.

(** C7 as stated fails on a body whose [esearchresult] is not an object:
    the path to [idlist] is missing, yet the second lookup raises
    AttributeError instead of falling back to the empty list. *)
Lemma null_esearchresult_raises :
  idlist_path (PDict [("esearchresult", PNone)]) = None /\
  fetch_paper_ids (constant_server 200 (PDict [("esearchresult", PNone)])) "cancer" []
  = (Raise AttributeError, [Get PUBMED_API_URL (search_params "cancer")]).
Proof. split; reflexivity. Qed.

Lemma fetch_paper_ids_trace
    (requests_get : str -> list (str * pyval) -> result response)
    (q : str) (tr : list event) :
  snd (fetch_paper_ids requests_get q tr) = tr ++ [Get PUBMED_API_URL (search_params q)].
Proof.
  unfold fetch_paper_ids, mbind, M_bind, lift, http_get.
  destruct (requests_get _ _) as [resp|e]; [|reflexivity].
  destruct (raise_for_status resp); [|reflexivity].
  destruct (json resp); reflexivity.
Qed.

(** C8.  Whenever the search step returns an empty id list, [main] ends
    normally having done two things only: the search request and the
    printing of "No papers found.".  No detail request, no report row and
    no file event occur, whether or not an output file was asked for. *)
Theorem empty_search_stops
    (requests_get : str -> list (str * pyval) -> result response)
    (open_file : str -> result unit) (args : arguments) (tr0 tr1 : list event) :
  fetch_paper_ids requests_get (query args) tr0 = (Ok (PList []), tr1) ->
  main requests_get open_file args tr0
  = (Ok tt, tr0 ++ [Get PUBMED_API_URL (search_params (query args));
                    Print (PStr "No papers found.")]).
Proof.
  intros H.
  pose proof (fetch_paper_ids_trace requests_get (query args) tr0) as Htr.
  rewrite H in Htr. cbn [snd] in Htr. subst tr1.
  unfold main. unfold mbind at 1. unfold M_bind at 1. rewrite H.
  cbn [truthy List.length Nat.eqb negb]. unfold perform.
  now rewrite <- app_assoc.
Qed.

Lemma empty_search_stops_witness :
  main (constant_server 200 (PDict [("esearchresult", PDict [("idlist", PList [])])]))
       (fun _ => Ok tt) {| query := "zzzz"; file := Some "out.csv" |} []
  = (Ok tt, [Get PUBMED_API_URL (search_params "zzzz"); Print (PStr "No papers found.")]).
Proof.
  exact (empty_search_stops
           (constant_server 200 (PDict [("esearchresult", PDict [("idlist", PList [])])]))
           (fun _ => Ok tt) {| query := "zzzz"; file := Some "out.csv" |} [] _ eq_refl).
Defined.

(** ** Row projection *)

Lemma identify_loop_flagged (authors out : list pyval) :
  identify_loop authors [] = Ok out -> Forall is_flagged out.
Proof.
  revert out. induction authors as [|author rest IH]; intros out.
  - simpl. intros [= <-]. constructor.
  - cbn [identify_loop].
    destruct (py_get author "affiliation" (PStr "")) as [aff|e];
      cbn [mbind result_bind]; [|discriminate].
    destruct (truthy aff) eqn:Ht; [|apply IH].
    destruct aff as [| | | |s| |]; cbn [re_search mbind result_bind]; try discriminate.
    destruct (search_from ACADEMIC_PATTERN s 0); [apply IH|].
    destruct (py_get author "name" PNone) as [name|e];
      cbn [mbind result_bind]; [|discriminate].
    rewrite identify_loop_acc.
    destruct (identify_loop rest []) as [out'|e]; cbn [mbind result_bind]; [|discriminate].
    intros [= <-]. constructor; [|now apply IH].
    exists name, s. split; [reflexivity|].
    intros ->. discriminate Ht.
Qed.

Lemma identify_flagged (authors : pyval) (out : list pyval) :
  identify_non_academic_authors authors = Ok out -> Forall is_flagged out.
Proof.
  unfold identify_non_academic_authors.
  destruct (py_iter authors) as [items|e]; cbn [mbind result_bind]; [|discriminate].
  apply identify_loop_flagged.
Qed.

Lemma flagged_pairs (out : list pyval) :
  Forall is_flagged out ->
  exists pairs : list (pyval * str),
    out = List.map (fun p => flagged (fst p) (snd p)) pairs /\
    Forall (fun p => snd p <> "") pairs.
Proof.
  induction 1 as [|r out [n [a [-> Ha]]] _ [pairs [-> Hp]]].
  - now exists [].
  - exists ((n, a) :: pairs). split; [reflexivity | now constructor].
Qed.

Lemma comprehension_names (pairs : list (pyval * str)) :
  comprehension (fun a => py_getitem a "name")
                (List.map (fun p => flagged (fst p) (snd p)) pairs)
  = Ok (List.map fst pairs).
Proof.
  induction pairs as [|p pairs IH]; [reflexivity|].
  cbn [List.map comprehension]. rewrite IH. reflexivity.
Qed.

Lemma comprehension_affiliations (pairs : list (pyval * str)) :
  comprehension (fun a => py_getitem a "affiliation")
                (List.map (fun p => flagged (fst p) (snd p)) pairs)
  = Ok (List.map (fun p => PStr (snd p)) pairs).
Proof.
  induction pairs as [|p pairs IH]; [reflexivity|].
  cbn [List.map comprehension]. rewrite IH. reflexivity.
Qed.

Lemma expect_strs_map {A : Type} (f : A -> str) (l : list A) :
  expect_strs (List.map (fun x => PStr (f x)) l) = Ok (List.map f l).
Proof.
  induction l as [|x l IH]; [reflexivity|]. simpl. now rewrite IH.
Qed.

Lemma expect_strs_total (l : list pyval) :
  (forallb is_str l = true -> exists ss, expect_strs l = Ok ss) /\
  (forallb is_str l = false -> expect_strs l = Raise TypeError).
Proof.
  induction l as [|v l [IHt IHf]]; [split; [now exists [] | discriminate]|].
  destruct v as [| | | |s| |]; cbn [forallb is_str andb expect_strs];
    try (split; [discriminate | reflexivity]).
  split.
  - intros H. destruct (IHt H) as [ss Hss]. rewrite Hss. now exists (s :: ss).
  - intros H. now rewrite (IHf H).
Qed.

Lemma join_nonempty (sep : str) (ss : list str) :
  ss <> [] -> Forall (fun s => s <> "") ss -> join sep ss <> "".
Proof.
  intros Hne H. destruct H as [|s ss Hs _]; [contradiction|].
  destruct s as [|c s]; [contradiction|].
  destruct ss; discriminate.
Qed.

(** What [project_row] comes to once the classification has answered: the
    only step left that can fail is the join of the names. *)
Lemma project_row_after_classification
    (d : list (str * pyval)) (pairs : list (pyval * str)) :
  identify_non_academic_authors (authors_of d)
  = Ok (List.map (fun p => flagged (fst p) (snd p)) pairs) ->
  project_row (PDict d)
  = (names ← expect_strs (List.map fst pairs);
     Ok (report_row d (or_NA (join ", " names))
                      (or_NA (join ", " (List.map snd pairs))))).
Proof.
  intros H. unfold project_row. cbn [py_get]. fold (authors_of d).
  cbn [mbind result_bind]. rewrite H. cbn [mbind result_bind].
  rewrite comprehension_names. cbn [mbind result_bind]. unfold str_join.
  destruct (expect_strs (List.map fst pairs)) as [names|e]; cbn [mbind result_bind];
    [|reflexivity].
  rewrite comprehension_affiliations. cbn [mbind result_bind].
  rewrite (expect_strs_map snd pairs). reflexivity.
Qed.

Lemma has_str_name_flagged (pairs : list (pyval * str)) :
  forallb has_str_name (List.map (fun p => flagged (fst p) (snd p)) pairs)
  = forallb is_str (List.map fst pairs).
Proof.
  induction pairs as [|p pairs IH]; [reflexivity|].
  cbn [List.map forallb]. now rewrite IH.
Qed.

Lemma flagged_affiliations_nonempty (pairs : list (str * str)) :
  Forall is_flagged (List.map (fun p => flagged (PStr (fst p)) (snd p)) pairs) ->
  Forall (fun s => s <> "") (List.map snd pairs).
Proof.
  induction pairs as [|p pairs IH]; cbn [List.map]; intros H; [constructor|].
  inversion H as [|r rs [n [a [Heq Ha]]] Hrest]; subst.
  constructor; [|now apply IH].
  unfold flagged in Heq. injection Heq as _ Hs. now rewrite Hs.
Qed.

Lemma project_row_string_names
    (d : list (str * pyval)) (pairs : list (str * str)) :
  identify_non_academic_authors (authors_of d)
  = Ok (List.map (fun p => flagged (PStr (fst p)) (snd p)) pairs) ->
  project_row (PDict d)
  = Ok (report_row d (or_NA (join ", " (List.map fst pairs)))
                     (or_NA (join ", " (List.map snd pairs)))).
Proof.
  intros H.
  rewrite (project_row_after_classification d
             (List.map (fun p => (PStr (fst p), snd p)) pairs)).
  - rewrite !List.map_map. cbn [fst snd].
    now rewrite (expect_strs_map fst pairs).
  - rewrite List.map_map. exact H.
Qed.

(** C4, as the code has it.  When the classified list is empty both
    joined fields of the row are "N/A".  When it is non-empty and its
    names are strings, Company Affiliations is the affiliations joined
    with ", ", and Non-academic Authors is the names joined with ", "
    unless that text is empty, in which case it is "N/A". *)
Theorem joined_fields (d : list (str * pyval)) (pairs : list (str * str)) :
  identify_non_academic_authors (authors_of d)
  = Ok (List.map (fun p => flagged (PStr (fst p)) (snd p)) pairs) ->
  (pairs = [] -> project_row (PDict d) = Ok (report_row d "N/A" "N/A")) /\
  (pairs <> [] ->
   project_row (PDict d)
   = Ok (report_row d
           (if str_eqb (join ", " (List.map fst pairs)) ""
            then "N/A" else join ", " (List.map fst pairs))
           (join ", " (List.map snd pairs)))).
Proof.
  intros H. rewrite (project_row_string_names d pairs H). split.
  - now intros ->.
  - intros Hne. fold (or_NA (join ", " (List.map fst pairs))).
    assert (Ha : join ", " (List.map snd pairs) <> "").
    { apply join_nonempty.
      - destruct pairs; [contradiction | discriminate].
      - apply flagged_affiliations_nonempty. exact (identify_flagged _ _ H). }
    unfold or_NA at 2. now rewrite (string_eqb_empty _ Ha).
Qed.

Lemma joined_fields_witness :
  project_row
    (PDict [("uid", PStr "1");
            ("authors",
             PList [PDict [("name", PStr "A");
                           ("affiliation", PStr "Dept of X, Harvard University")];
                    PDict [("name", PStr "B"); ("affiliation", PStr "Acme Biotech Inc.")];
                    PDict [("name", PStr "C"); ("affiliation", PStr "Pfizer")]])])
  = Ok (PDict [("PubmedID", PStr "1"); ("Title", PStr "N/A");
               ("Publication Date", PStr "N/A");
               ("Non-academic Authors", PStr "B, C");
               ("Company Affiliations", PStr "Acme Biotech Inc., Pfizer");
               ("Corresponding Author Email", PStr "N/A")]).
Proof.
  exact (proj2 (joined_fields
                  [("uid", PStr "1");
                   ("authors",
                    PList [PDict [("name", PStr "A");
                                  ("affiliation", PStr "Dept of X, Harvard University")];
                           PDict [("name", PStr "B");
                                  ("affiliation", PStr "Acme Biotech Inc.")];
                           PDict [("name", PStr "C"); ("affiliation", PStr "Pfizer")]])]
                  [("B", "Acme Biotech Inc."); ("C", "Pfizer")] eq_refl)
               ltac:(discriminate)).
Defined.

(** C4 as stated fails on a non-empty classified list whose names join to
    the empty text: the field shows "N/A", not the joined names. *)
Lemma empty_joined_names_render_NA :
  identify_non_academic_authors
    (PList [PDict [("name", PStr ""); ("affiliation", PStr "Acme")]])
  = Ok [flagged (PStr "") "Acme"] /\
  join ", " [""] = "" /\
  project_row
    (PDict [("uid", PStr "1");
            ("authors", PList [PDict [("name", PStr ""); ("affiliation", PStr "Acme")]])])
  = Ok (PDict [("PubmedID", PStr "1"); ("Title", PStr "N/A");
               ("Publication Date", PStr "N/A");
               ("Non-academic Authors", PStr "N/A");
               ("Company Affiliations", PStr "Acme");
               ("Corresponding Author Email", PStr "N/A")]).
Proof. repeat split. Qed.

(** C9.  Once the classification has answered, the row is produced
    exactly when every classified record carries a string name; if one
    does not (its author had no name, so the record holds None), joining
    the names raises TypeError and no row is produced. *)
Theorem projection_needs_string_names (d : list (str * pyval)) (na : list pyval) :
  identify_non_academic_authors (authors_of d) = Ok na ->
  (forallb has_str_name na = true -> exists row, project_row (PDict d) = Ok row) /\
  (forallb has_str_name na = false -> project_row (PDict d) = Raise TypeError).
Proof.
  intros H.
  destruct (flagged_pairs na (identify_flagged _ _ H)) as [pairs [-> _]].
  rewrite (project_row_after_classification d pairs H), has_str_name_flagged.
  destruct (expect_strs_total (List.map fst pairs)) as [Ht Hf]. split.
  - intros Hs. destruct (Ht Hs) as [ss ->]. cbn [mbind result_bind]. eauto.
  - intros Hs. now rewrite (Hf Hs).
Qed.

Lemma projection_needs_string_names_witness :
  identify_non_academic_authors (PList [PDict [("affiliation", PStr "Acme")]])
  = Ok [flagged PNone "Acme"] /\
  project_row
    (PDict [("uid", PStr "1");
            ("authors", PList [PDict [("affiliation", PStr "Acme")]])])
  = Raise TypeError.
Proof.
  split; [reflexivity|].
  exact (proj2 (projection_needs_string_names
                  [("uid", PStr "1");
                   ("authors", PList [PDict [("affiliation", PStr "Acme")]])]
                  [flagged PNone "Acme"] eq_refl) eq_refl).
Defined.

(** C10.  The "N/A" of the Non-academic Authors field follows the joined
    text, not the list: the field is "N/A" when the names join to the
    empty text and is the joined text when they do not; in particular a
    classified list of exactly one author whose name is the empty string,
    though not empty, gives "N/A" next to that author's affiliation. *)
Theorem NA_follows_the_joined_text
    (d : list (str * pyval)) (pairs : list (str * str)) :
  identify_non_academic_authors (authors_of d)
  = Ok (List.map (fun p => flagged (PStr (fst p)) (snd p)) pairs) ->
  (join ", " (List.map fst pairs) = "" ->
   exists affiliations, project_row (PDict d) = Ok (report_row d "N/A" affiliations)) /\
  (join ", " (List.map fst pairs) <> "" ->
   exists affiliations,
     project_row (PDict d)
     = Ok (report_row d (join ", " (List.map fst pairs)) affiliations)) /\
  (forall a, pairs = [("", a)] -> project_row (PDict d) = Ok (report_row d "N/A" a)).
Proof.
  intros H. rewrite (project_row_string_names d pairs H). repeat split.
  - intros ->. eauto.
  - intros Hne. unfold or_NA at 1. rewrite (string_eqb_empty _ Hne). eauto.
  - intros a ->. cbn [List.map fst snd join]. unfold or_NA at 1. cbn [str_eqb].
    destruct (Forall_cons_1 _ _ _ (identify_flagged _ _ H)) as [[n [a' [Heq Ha]]] _].
    unfold flagged in Heq. injection Heq as _ <-.
    unfold or_NA. now rewrite (string_eqb_empty _ Ha).
Qed.

Lemma NA_follows_the_joined_text_witness :
  project_row
    (PDict [("uid", PStr "9");
            ("authors", PList [PDict [("name", PStr ""); ("affiliation", PStr "Genentech")]])])
  = Ok (PDict [("PubmedID", PStr "9"); ("Title", PStr "N/A");
               ("Publication Date", PStr "N/A");
               ("Non-academic Authors", PStr "N/A");
               ("Company Affiliations", PStr "Genentech");
               ("Corresponding Author Email", PStr "N/A")]) /\
  exists affiliations,
    project_row
      (PDict [("uid", PStr "8");
              ("authors", PList [PDict [("name", PStr "Bob"); ("affiliation", PStr "Acme")]])])
    = Ok (report_row
            [("uid", PStr "8");
             ("authors", PList [PDict [("name", PStr "Bob"); ("affiliation", PStr "Acme")]])]
            "Bob" affiliations).
Proof.
  split.
  - exact (proj2 (proj2 (NA_follows_the_joined_text
                    [("uid", PStr "9");
                     ("authors",
                      PList [PDict [("name", PStr ""); ("affiliation", PStr "Genentech")]])]
                    [("", "Genentech")] eq_refl))
                 "Genentech" eq_refl).
  - exact (proj1 (proj2 (NA_follows_the_joined_text
                    [("uid", PStr "8");
                     ("authors",
                      PList [PDict [("name", PStr "Bob"); ("affiliation", PStr "Acme")]])]
                    [("Bob", "Acme")] eq_refl))
                 ltac:(discriminate)).
Defined.

(** * Further properties of the code *)

(** ** Classification: what the output can contain *)

Lemma identify_loop_sound (authors out : list pyval) :
  identify_loop authors [] = Ok out ->
  Forall (fun r => exists (n : pyval) (a : str),
              r = flagged n a /\ a <> "" /\ search_from ACADEMIC_PATTERN a 0 = None) out /\
  List.length out <= List.length authors.
Proof.
  revert out. induction authors as [|author rest IH]; intros out.
  - simpl. intros [= <-]. split; [constructor | reflexivity].
  - cbn [identify_loop].
    destruct (py_get author "affiliation" (PStr "")) as [aff|e];
      cbn [mbind result_bind]; [|discriminate].
    assert (Hskip : identify_loop rest [] = Ok out ->
                    Forall (fun r => exists (n : pyval) (a : str),
                                r = flagged n a /\ a <> "" /\
                                search_from ACADEMIC_PATTERN a 0 = None) out /\
                    List.length out <= List.length (author :: rest)).
    { intros H. destruct (IH out H) as [Hf Hl]. split; [exact Hf | simpl; lia]. }
    destruct (truthy aff) eqn:Ht; [|exact Hskip].
    destruct aff as [| | | |s| |]; cbn [re_search mbind result_bind]; try discriminate.
    destruct (search_from ACADEMIC_PATTERN s 0) eqn:Hs; [exact Hskip|].
    destruct (py_get author "name" PNone) as [name|e];
      cbn [mbind result_bind]; [|discriminate].
    rewrite identify_loop_acc.
    destruct (identify_loop rest []) as [out'|e]; cbn [mbind result_bind]; [|discriminate].
    intros [= <-]. destruct (IH out' eq_refl) as [Hf Hl]. split.
    + constructor; [|exact Hf].
      exists name, s. repeat split; [|exact Hs].
      intros ->. discriminate Ht.
    + simpl. lia.
Qed.

(** X1.  Whatever value stands for the authors, if the classification
    returns, every record it returns has exactly the two keys name and
    affiliation, its affiliation is a non-empty text, and that text
    contains none of the keywords in any letter case; and there are no
    more records than there were items to look at. *)
Theorem classification_sound (authors : pyval) (items out : list pyval) :
  py_iter authors = Ok items ->
  identify_non_academic_authors authors = Ok out ->
  Forall (fun r => exists (n : pyval) (a : str),
              r = flagged n a /\ a <> "" /\ ~ looks_academic a) out /\
  List.length out <= List.length items.
Proof.
  unfold identify_non_academic_authors. intros -> H. cbn [mbind result_bind] in H.
  destruct (identify_loop_sound items out H) as [Hf Hl]. split; [|exact Hl].
  eapply Forall_impl; [exact Hf|].
  intros r [n [a [Hr [Ha Hs]]]]. exists n, a. repeat split; try assumption.
  intros Hplain. destruct (looks_academic_matches a Hplain) as [k [Hin Hk]].
  exact (proj1 (search_from_None ACADEMIC_PATTERN a 0 eq_refl) Hs k Hin Hk).
Qed.

Lemma classification_sound_witness :
  Forall (fun r => exists (n : pyval) (a : str),
              r = flagged n a /\ a <> "" /\ ~ looks_academic a)
         [flagged (PStr "B") "Acme"] /\
  List.length [flagged (PStr "B") "Acme"] <= 2.
Proof.
  exact (classification_sound
           (PList [PDict [("name", PStr "A"); ("affiliation", PStr "Some College")];
                   PDict [("name", PStr "B"); ("affiliation", PStr "Acme")]])
           _ [flagged (PStr "B") "Acme"] eq_refl eq_refl).
Defined.

Lemma identify_loop_fixed (out : list pyval) :
  Forall (fun r => exists (n : pyval) (a : str),
              r = flagged n a /\ a <> "" /\ search_from ACADEMIC_PATTERN a 0 = None) out ->
  identify_loop out [] = Ok out.
Proof.
  induction 1 as [|r out [n [a [-> [Ha Hs]]]] _ IH]; [reflexivity|].
  cbn [identify_loop].
  change (py_get (flagged n a) "affiliation" (PStr "")) with (Ok (PStr a)).
  change (py_get (flagged n a) "name" PNone) with (Ok n).
  cbn [mbind result_bind truthy re_search].
  rewrite (string_eqb_empty a Ha). cbn [negb]. rewrite Hs.
  rewrite identify_loop_acc, IH. reflexivity.
Qed.

(** X2.  Classifying the output of a classification changes nothing: the
    records returned are themselves authors the rule flags, and they come
    back as they are. *)
Theorem classification_idempotent (authors : pyval) (out : list pyval) :
  identify_non_academic_authors authors = Ok out ->
  identify_non_academic_authors (PList out) = Ok out.
Proof.
  unfold identify_non_academic_authors.
  destruct (py_iter authors) as [items|e]; cbn [mbind result_bind py_iter]; [|discriminate].
  intros H. apply identify_loop_fixed. exact (proj1 (identify_loop_sound items out H)).
Qed.

Lemma classification_idempotent_witness :
  identify_non_academic_authors (PList [flagged PNone "Acme"; flagged (PStr "C") "Pfizer"])
  = Ok [flagged PNone "Acme"; flagged (PStr "C") "Pfizer"].
Proof.
  exact (classification_idempotent
           (PList [PDict [("affiliation", PStr "Acme")];
                   PDict [("name", PStr "A"); ("affiliation", PStr "A Lab")];
                   PDict [("affiliation", PStr "Pfizer"); ("name", PStr "C")]])
           _ eq_refl).
Defined.

(** X3.  Classification goes through the list one author at a time and
    in order: the output for two lists put end to end is the two outputs
    put end to end. *)
Theorem classification_distributes (l1 l2 o1 o2 : list pyval) :
  identify_non_academic_authors (PList l1) = Ok o1 ->
  identify_non_academic_authors (PList l2) = Ok o2 ->
  identify_non_academic_authors (PList (l1 ++ l2)) = Ok (o1 ++ o2).
Proof.
  unfold identify_non_academic_authors. cbn [py_iter mbind result_bind].
  intros H1 H2. rewrite identify_loop_app, H1. cbn [mbind result_bind].
  rewrite identify_loop_acc, H2. reflexivity.
Qed.

Lemma classification_distributes_witness :
  identify_non_academic_authors
    (PList ([PDict [("name", PStr "B"); ("affiliation", PStr "Acme")]] ++
            [PDict [("name", PStr "A"); ("affiliation", PStr "MIT, Institute")];
             PDict [("name", PStr "C"); ("affiliation", PStr "Pfizer")]]))
  = Ok ([flagged (PStr "B") "Acme"] ++ [flagged (PStr "C") "Pfizer"]).
Proof.
  exact (classification_distributes
           [PDict [("name", PStr "B"); ("affiliation", PStr "Acme")]]
           [PDict [("name", PStr "A"); ("affiliation", PStr "MIT, Institute")];
            PDict [("name", PStr "C"); ("affiliation", PStr "Pfizer")]]
           [flagged (PStr "B") "Acme"] [flagged (PStr "C") "Pfizer"] eq_refl eq_refl).
Defined.

(** X4.  One malformed author stops the whole classification: an author
    that is not a dictionary raises AttributeError, and an author whose
    affiliation is a truthy value other than a string raises TypeError,
    whatever the authors before it contributed and whatever follows. *)
Theorem malformed_author_aborts (before after o1 : list pyval) (author : pyval) :
  identify_non_academic_authors (PList before) = Ok o1 ->
  (isinstance_dict author = false ->
   identify_non_academic_authors (PList (before ++ author :: after)) = Raise AttributeError) /\
  (forall d v, author = PDict d -> dict_lookup "affiliation" d = Some v ->
               truthy v = true -> is_str v = false ->
   identify_non_academic_authors (PList (before ++ author :: after)) = Raise TypeError).
Proof.
  unfold identify_non_academic_authors. cbn [py_iter mbind result_bind].
  intros H1. split.
  - intros Hd. rewrite identify_loop_app, H1. cbn [mbind result_bind identify_loop].
    destruct author; try discriminate Hd; reflexivity.
  - intros d v -> Hv Ht Hs. rewrite identify_loop_app, H1.
    cbn [mbind result_bind identify_loop py_get]. rewrite Hv, Ht.
    destruct v; try discriminate Hs; reflexivity.
Qed.

Lemma malformed_author_aborts_witness :
  identify_non_academic_authors
    (PList [PDict [("name", PStr "B"); ("affiliation", PStr "Acme")]; PStr "Jane Doe"])
  = Raise AttributeError /\
  identify_non_academic_authors
    (PList [PDict [("name", PStr "B"); ("affiliation", PStr "Acme")];
            PDict [("name", PStr "C"); ("affiliation", PList [PStr "Pfizer"])]])
  = Raise TypeError.
Proof.
  split.
  - exact (proj1 (malformed_author_aborts
                    [PDict [("name", PStr "B"); ("affiliation", PStr "Acme")]] []
                    _ (PStr "Jane Doe") eq_refl) eq_refl).
  - exact (proj2 (malformed_author_aborts
                    [PDict [("name", PStr "B"); ("affiliation", PStr "Acme")]] []
                    _ (PDict [("name", PStr "C"); ("affiliation", PList [PStr "Pfizer"])])
                    eq_refl)
                 _ (PList [PStr "Pfizer"]) eq_refl eq_refl eq_refl eq_refl).
Defined.

Lemma search_depends_on_folded_text (a1 a2 : str) :
  fold_string a1 = fold_string a2 ->
  search_from ACADEMIC_PATTERN a1 0 = None -> search_from ACADEMIC_PATTERN a2 0 = None.
Proof.
  intros Hl H. apply (search_from_None ACADEMIC_PATTERN a2 0 eq_refl). intros k Hin.
  unfold contains_folded. rewrite <- Hl.
  exact (proj1 (search_from_None ACADEMIC_PATTERN a1 0 eq_refl) H k Hin).
Qed.

(** X5.  The letter case of an affiliation does not matter to the
    outcome.  Two authors whose affiliations are equal once A to Z are
    put in lower case (and the capital I with dot and the dotless i are
    taken for i, the long s for s, the Kelvin sign for k) are either both
    flagged or both left out. *)
Theorem classification_ignores_case (d1 d2 : list (str * pyval)) (a1 a2 : str) :
  dict_lookup "affiliation" d1 = Some (PStr a1) ->
  dict_lookup "affiliation" d2 = Some (PStr a2) ->
  fold_string a1 = fold_string a2 ->
  (identify_non_academic_authors (PList [PDict d1]) = Ok [] <->
   identify_non_academic_authors (PList [PDict d2]) = Ok []).
Proof.
  intros H1 H2 Hl.
  unfold identify_non_academic_authors.
  cbn [py_iter mbind result_bind identify_loop py_get]. rewrite H1, H2.
  cbn [truthy re_search mbind result_bind].
  destruct a1 as [|c1 a1], a2 as [|c2 a2]; try discriminate Hl; [tauto|].
  cbn [str_eqb negb].
  destruct (search_from ACADEMIC_PATTERN (Chr c1 a1) 0) eqn:S1,
           (search_from ACADEMIC_PATTERN (Chr c2 a2) 0) eqn:S2;
    cbn [app]; try tauto.
  - rewrite (search_depends_on_folded_text _ _ (eq_sym Hl) S2) in S1. discriminate.
  - rewrite (search_depends_on_folded_text _ _ Hl S1) in S2. discriminate.
  - split; discriminate.
Qed.

Lemma classification_ignores_case_witness :
  (identify_non_academic_authors
     (PList [PDict [("name", PStr "A"); ("affiliation", PStr "HARVARD UNIVERSITY")]]) = Ok [] <->
   identify_non_academic_authors
     (PList [PDict [("affiliation", PStr "harvard university")]]) = Ok []) /\
  (identify_non_academic_authors
     (PList [PDict [("affiliation", PStr "ACME BIOTECH")]]) = Ok [] <->
   identify_non_academic_authors
     (PList [PDict [("affiliation", PStr "Acme Biotech")]]) = Ok []).
Proof.
  split.
  - exact (classification_ignores_case
             [("name", PStr "A"); ("affiliation", PStr "HARVARD UNIVERSITY")]
             [("affiliation", PStr "harvard university")]
             _ _ eq_refl eq_refl eq_refl).
  - exact (classification_ignores_case
             [("affiliation", PStr "ACME BIOTECH")]
             [("affiliation", PStr "Acme Biotech")]
             _ _ eq_refl eq_refl eq_refl).
Defined.

(** ** The network steps: pass-through, failures, number of requests *)

(** X6.  On a passing status and a body that holds [esearchresult.idlist],
    the search step returns the value found there as it is (the code
    neither checks nor shortens it), after one request to the search
    endpoint asking for the pubmed database, the query as term, at most
    10 results and JSON. *)
Theorem search_returns_idlist
    (requests_get : str -> list (str * pyval) -> result response)
    (q : str) (resp : response) (body er : list (str * pyval)) (ids : pyval)
    (tr : list event) :
  requests_get PUBMED_API_URL (search_params q) = Ok resp ->
  raise_for_status resp = Ok tt ->
  json resp = Ok (PDict body) ->
  dict_lookup "esearchresult" body = Some (PDict er) ->
  dict_lookup "idlist" er = Some ids ->
  fetch_paper_ids requests_get q tr
  = (Ok ids,
     tr ++ [Get PUBMED_API_URL
                [("db", PStr "pubmed"); ("term", PStr q); ("retmax", PInt 10);
                 ("retmode", PStr "json")]]).
Proof.
  intros Hget Hst Hjs Her Hid.
  unfold fetch_paper_ids, mbind, M_bind, lift, http_get.
  rewrite Hget, Hst, Hjs. cbn [py_get result_bind]. rewrite Her. cbn [py_get].
  now rewrite Hid.
Qed.

Lemma search_returns_idlist_witness :
  fetch_paper_ids
    (constant_server 200
       (PDict [("header", PDict []);
               ("esearchresult",
                PDict [("count", PStr "12");
                       ("idlist", PList (List.map PStr ["1"; "2"; "3"; "4"; "5"; "6"; "7";
                                                        "8"; "9"; "10"; "11"; "12"]))])]))
    "cancer" []
  = (Ok (PList (List.map PStr ["1"; "2"; "3"; "4"; "5"; "6"; "7"; "8"; "9"; "10"; "11"; "12"])),
     [Get PUBMED_API_URL
          [("db", PStr "pubmed"); ("term", PStr "cancer"); ("retmax", PInt 10);
           ("retmode", PStr "json")]]).
Proof.
  exact (search_returns_idlist
           (constant_server 200
              (PDict [("header", PDict []);
                      ("esearchresult",
                       PDict [("count", PStr "12");
                              ("idlist",
                               PList (List.map PStr ["1"; "2"; "3"; "4"; "5"; "6"; "7";
                                                     "8"; "9"; "10"; "11"; "12"]))])]))
           "cancer" _ _ _ _ [] eq_refl eq_refl eq_refl eq_refl eq_refl).
Defined.

(** X7.  The search step makes exactly one request whatever happens, and
    hands every failure on unchanged: an exception of the request itself,
    an exception of the JSON decoding, and AttributeError when the decoded
    body is not an object. *)
Theorem search_failures_propagate
    (requests_get : str -> list (str * pyval) -> result response)
    (q : str) (tr : list event) :
  snd (fetch_paper_ids requests_get q tr) = tr ++ [Get PUBMED_API_URL (search_params q)] /\
  (forall e, requests_get PUBMED_API_URL (search_params q) = Raise e ->
             fst (fetch_paper_ids requests_get q tr) = Raise e) /\
  (forall resp e, requests_get PUBMED_API_URL (search_params q) = Ok resp ->
                  raise_for_status resp = Ok tt -> json resp = Raise e ->
                  fst (fetch_paper_ids requests_get q tr) = Raise e) /\
  (forall resp v, requests_get PUBMED_API_URL (search_params q) = Ok resp ->
                  raise_for_status resp = Ok tt -> json resp = Ok v ->
                  isinstance_dict v = false ->
                  fst (fetch_paper_ids requests_get q tr) = Raise AttributeError).
Proof.
  unfold fetch_paper_ids, mbind, M_bind, lift, http_get. repeat split.
  - destruct (requests_get _ _) as [resp|e]; [|reflexivity].
    destruct (raise_for_status resp); [|reflexivity].
    destruct (json resp); reflexivity.
  - intros e ->. reflexivity.
  - intros resp e -> -> ->. reflexivity.
  - intros resp v -> -> -> Hv. destruct v; try discriminate Hv; reflexivity.
Qed.

Lemma search_failures_propagate_witness :
  fetch_paper_ids (fun _ _ => Raise ConnectionError) "cancer" []
  = (Raise ConnectionError, [Get PUBMED_API_URL (search_params "cancer")]) /\
  fst (fetch_paper_ids (constant_server 200 (PList [])) "cancer" []) = Raise AttributeError.
Proof.
  pose proof (search_failures_propagate (fun _ _ => Raise ConnectionError) "cancer" [])
    as [Htr [Hreq _]].
  pose proof (search_failures_propagate (constant_server 200 (PList [])) "cancer" [])
    as [_ [_ [_ Hbody]]].
  split.
  - rewrite (surjective_pairing (fetch_paper_ids _ _ _)), Htr, (Hreq _ eq_refl). reflexivity.
  - exact (Hbody _ (PList []) eq_refl eq_refl eq_refl eq_refl).
Defined.

(** X8.  The ids are joined before the request is built: a non-empty list
    of ids that holds anything but strings makes detail retrieval raise
    TypeError without any request being made. *)
Theorem bad_id_makes_no_request
    (requests_get : str -> list (str * pyval) -> result response)
    (items : list pyval) (tr : list event) :
  items <> [] ->
  forallb is_str items = false ->
  fetch_paper_details requests_get (PList items) tr = (Raise TypeError, tr).
Proof.
  intros Hne Hs. unfold fetch_paper_details.
  replace (truthy (PList items)) with true by (destruct items; [contradiction | reflexivity]).
  cbn [negb]. unfold mbind, M_bind, lift. cbn [py_iter].
  now rewrite (proj2 (expect_strs_total items) Hs).
Qed.

Lemma bad_id_makes_no_request_witness :
  fetch_paper_details (constant_server 200 (PDict [])) (PList [PStr "1"; PInt 2]) []
  = (Raise TypeError, []).
Proof.
  exact (bad_id_makes_no_request (constant_server 200 (PDict [])) [PStr "1"; PInt 2] []
           ltac:(discriminate) eq_refl).
Defined.

Lemma details_loop_dicts (data : pyval) (ids : list str) (papers out : list pyval) :
  details_loop data ids papers = Ok out ->
  Forall (fun p => isinstance_dict p = true) papers ->
  Forall (fun p => isinstance_dict p = true) out /\
  List.length out <= List.length papers + List.length ids.
Proof.
  revert papers. induction ids as [|i ids IH]; intros papers.
  - simpl. intros [= <-] Hp. split; [exact Hp | lia].
  - cbn [details_loop].
    destruct (py_get data "result" (PDict [])) as [rm|e]; cbn [mbind result_bind];
      [|discriminate].
    destruct (py_get rm i (PDict [])) as [pd|e]; cbn [mbind result_bind]; [|discriminate].
    destruct (isinstance_dict pd) eqn:Hd; intros H Hp.
    + destruct (IH _ H) as [Hf Hl].
      * apply Forall_app. split; [exact Hp | now constructor].
      * split; [exact Hf|]. rewrite List.length_app in Hl. simpl in *. lia.
    + destruct (IH _ H Hp) as [Hf Hl]. split; [exact Hf | simpl; lia].
Qed.

(** X9.  Whatever the ids and whatever the response, the records detail
    retrieval returns are all dictionaries, and there are at most as many
    of them as ids were asked for. *)
Theorem details_are_dictionaries
    (requests_get : str -> list (str * pyval) -> result response)
    (paper_ids : pyval) (items papers : list pyval) (tr tr' : list event) :
  py_iter paper_ids = Ok items ->
  fetch_paper_details requests_get paper_ids tr = (Ok papers, tr') ->
  Forall (fun p => isinstance_dict p = true) papers /\
  List.length papers <= List.length items.
Proof.
  intros Hit. unfold fetch_paper_details.
  destruct (truthy paper_ids).
  - cbn [negb]. unfold mbind, M_bind, lift, http_get. rewrite Hit.
    destruct (expect_strs items) as [ids|e] eqn:He; [|discriminate].
    destruct (requests_get _ _) as [resp|e]; [|discriminate].
    destruct (raise_for_status resp); [|discriminate].
    destruct (json resp) as [data|e]; [|discriminate].
    destruct (details_loop data ids []) as [out|e] eqn:Hl; [|discriminate].
    intros [= <- _].
    destruct (details_loop_dicts data ids [] out Hl ltac:(constructor)) as [Hf Hlen].
    split; [exact Hf|]. simpl in Hlen.
    assert (Hids : List.length ids = List.length items).
    { clear -He. revert ids He. induction items as [|v items IH]; intros ids.
      - simpl. now intros [= <-].
      - destruct v; try discriminate. cbn [expect_strs].
        destruct (expect_strs items) as [ss|e]; cbn [mbind result_bind]; [|discriminate].
        intros [= <-]. simpl. now rewrite (IH ss eq_refl). }
    lia.
  - cbn [negb]. unfold mret, M_ret. intros [= <- _]. split; [constructor | simpl; lia].
Qed.

Lemma details_are_dictionaries_witness :
  Forall (fun p => isinstance_dict p = true) [PDict [("uid", PStr "1")]; PDict []] /\
  List.length [PDict [("uid", PStr "1")]; PDict []] <= 3.
Proof.
  exact (details_are_dictionaries
           (constant_server 200
              (PDict [("result", PDict [("1", PDict [("uid", PStr "1")]); ("2", PNone)])]))
           (PList [PStr "1"; PStr "2"; PStr "3"]) _ _ [] _ eq_refl eq_refl).
Defined.

(** X10.  For a non-empty list of string ids detail retrieval makes
    exactly one request, whatever its outcome and however many ids there
    are: to the details endpoint, with the ids joined by commas. *)
Theorem details_one_request
    (requests_get : str -> list (str * pyval) -> result response)
    (ids : list str) (tr : list event) :
  ids <> [] ->
  snd (fetch_paper_details requests_get (PList (List.map PStr ids)) tr)
  = tr ++ [Get DETAILS_API_URL
               [("db", PStr "pubmed"); ("id", PStr (join "," ids));
                ("retmode", PStr "json")]].
Proof.
  intros Hne. unfold fetch_paper_details.
  replace (truthy (PList (List.map PStr ids))) with true
    by (destruct ids; [contradiction | reflexivity]).
  cbn [negb]. unfold mbind, M_bind, lift, http_get. cbn [py_iter].
  rewrite (expect_strs_map_PStr ids).
  destruct (requests_get _ _) as [resp|e]; [|reflexivity].
  destruct (raise_for_status resp); [|reflexivity].
  destruct (json resp) as [data|e]; reflexivity.
Qed.

Lemma details_one_request_witness :
  snd (fetch_paper_details (constant_server 500 PNone)
         (PList (List.map PStr ["11"; "22"; "33"])) [])
  = [Get DETAILS_API_URL
         [("db", PStr "pubmed"); ("id", PStr "11,22,33"); ("retmode", PStr "json")]].
Proof.
  exact (details_one_request (constant_server 500 PNone) ["11"; "22"; "33"] []
           ltac:(discriminate)).
Defined.

(** X11.  Detail retrieval is lenient about single entries only.  With a
    non-empty list of string ids and a passing status, a decoded body that
    is not an object, or whose [result] is present and not an object,
    makes it raise AttributeError instead of skipping anything. *)
Theorem malformed_details_body_raises
    (requests_get : str -> list (str * pyval) -> result response)
    (ids : list str) (resp : response) (data : pyval) (tr : list event) :
  ids <> [] ->
  requests_get DETAILS_API_URL (details_params (join "," ids)) = Ok resp ->
  raise_for_status resp = Ok tt ->
  json resp = Ok data ->
  isinstance_dict data = false \/
  (exists body v, data = PDict body /\ dict_lookup "result" body = Some v /\
                  isinstance_dict v = false) ->
  fst (fetch_paper_details requests_get (PList (List.map PStr ids)) tr)
  = Raise AttributeError.
Proof.
  intros Hne Hget Hst Hjs Hbad. unfold fetch_paper_details.
  replace (truthy (PList (List.map PStr ids))) with true
    by (destruct ids; [contradiction | reflexivity]).
  cbn [negb]. unfold mbind, M_bind, lift, http_get. cbn [py_iter].
  rewrite (expect_strs_map_PStr ids), Hget, Hst, Hjs. cbn [fst].
  destruct ids as [|i ids]; [contradiction|]. cbn [details_loop].
  destruct Hbad as [Hd | [body [v [-> [Hv Hd]]]]].
  - destruct data; try discriminate Hd; reflexivity.
  - cbn [py_get]. rewrite Hv. cbn [mbind result_bind].
    destruct v; try discriminate Hd; reflexivity.
Qed.

Lemma malformed_details_body_raises_witness :
  fst (fetch_paper_details
         (constant_server 200 (PDict [("result", PList [PDict [("uid", PStr "1")]])]))
         (PList (List.map PStr ["1"])) [])
  = Raise AttributeError.
Proof.
  apply (malformed_details_body_raises
           (constant_server 200 (PDict [("result", PList [PDict [("uid", PStr "1")]])]))
           ["1"] _ _ [] ltac:(discriminate) eq_refl eq_refl eq_refl).
  right. exists [("result", PList [PDict [("uid", PStr "1")]])], (PList [PDict [("uid", PStr "1")]]).
  repeat split.
Defined.

(** ** Rows and their columns *)

Lemma project_row_shape (paper row : pyval) :
  project_row paper = Ok row ->
  exists d names affiliations, paper = PDict d /\ row = report_row d names affiliations.
Proof.
  unfold project_row. destruct paper as [| | | | | |d]; try discriminate.
  cbn [py_get mbind result_bind].
  repeat match goal with
         | |- (@mbind _ _ _ _ _ ?m = Ok _) -> _ =>
             destruct m; cbn [mbind result_bind]; [|discriminate]
         end.
  intros [= <-]. eexists d, _, _. split; reflexivity.
Qed.

(** X12.  Every row the projection produces has exactly the six columns
    of the CSV header, in header order; so the CSV writer accepts it (no
    ValueError for an unknown field) and writes one cell per column. *)
Theorem projected_rows_fit_the_header (paper row : pyval) :
  project_row paper = Ok row ->
  exists cells, row = PDict (List.combine FIELDNAMES cells) /\
                List.length cells = List.length FIELDNAMES /\
                row_cells row = Ok cells.
Proof.
  intros H. destruct (project_row_shape paper row H) as [d [n [a [_ ->]]]].
  unfold report_row. eexists [_; _; _; _; _; _]. repeat split.
Qed.

Lemma projected_rows_fit_the_header_witness :
  exists cells,
    PDict [("PubmedID", PStr "1"); ("Title", PStr "T"); ("Publication Date", PStr "N/A");
           ("Non-academic Authors", PStr "N/A"); ("Company Affiliations", PStr "N/A");
           ("Corresponding Author Email", PStr "N/A")]
    = PDict (List.combine FIELDNAMES cells) /\
    List.length cells = List.length FIELDNAMES /\
    row_cells (PDict [("PubmedID", PStr "1"); ("Title", PStr "T");
                      ("Publication Date", PStr "N/A");
                      ("Non-academic Authors", PStr "N/A");
                      ("Company Affiliations", PStr "N/A");
                      ("Corresponding Author Email", PStr "N/A")]) = Ok cells.
Proof.
  exact (projected_rows_fit_the_header
           (PDict [("uid", PStr "1"); ("title", PStr "T")]) _ eq_refl).
Defined.

Lemma identify_loop_no_affiliation (l : list pyval) :
  forallb lacks_affiliation l = true -> identify_loop l [] = Ok [].
Proof.
  induction l as [|a l IH]; [reflexivity|].
  cbn [forallb]. rewrite andb_true_iff. intros [Ha Hl].
  destruct a as [| | | | | |ad]; try discriminate Ha.
  cbn [identify_loop py_get lacks_affiliation] in *.
  destruct (dict_lookup "affiliation" ad); [discriminate Ha|].
  cbn. exact (IH Hl).
Qed.

(** X13.  A paper that has no authors key, or whose authors are all
    dictionaries without an affiliation key, gets a row whose two joined
    fields are both "N/A"; the other four fields are the paper's uid (or
    None), title, pubdate and corresponding_author (each or "N/A"). *)
Theorem no_affiliations_no_names (d : list (str * pyval)) :
  dict_lookup "authors" d = None \/
  (exists l, dict_lookup "authors" d = Some (PList l) /\
             forallb lacks_affiliation l = true) ->
  project_row (PDict d) = Ok (report_row d "N/A" "N/A").
Proof.
  intros H.
  apply (project_row_after_classification d []).
  unfold authors_of, identify_non_academic_authors.
  destruct H as [-> | [l [-> Hl]]]; cbn [py_iter mbind result_bind]; [reflexivity|].
  exact (identify_loop_no_affiliation l Hl).
Qed.

Lemma no_affiliations_no_names_witness :
  project_row
    (PDict [("uid", PStr "31")
            ; ("pubdate", PStr "2020 Jan")
            ; ("authors", PList [PDict [("name", PStr "Doe J"); ("authtype", PStr "Author");
                                        ("clusterid", PStr "")]])
            ; ("title", PStr "A study")])
  = Ok (PDict [("PubmedID", PStr "31"); ("Title", PStr "A study");
               ("Publication Date", PStr "2020 Jan");
               ("Non-academic Authors", PStr "N/A");
               ("Company Affiliations", PStr "N/A");
               ("Corresponding Author Email", PStr "N/A")]).
Proof.
  apply (no_affiliations_no_names
           [("uid", PStr "31"); ("pubdate", PStr "2020 Jan");
            ("authors", PList [PDict [("name", PStr "Doe J"); ("authtype", PStr "Author");
                                      ("clusterid", PStr "")]]);
            ("title", PStr "A study")]).
  right. eexists. split; reflexivity.
Defined.

Lemma project_loop_acc (papers acc : list pyval) :
  project_loop papers acc = (rows ← project_loop papers []; Ok (acc ++ rows)).
Proof.
  revert acc. induction papers as [|paper rest IH]; intros acc.
  - simpl. now rewrite app_nil_r.
  - cbn [project_loop]. destruct (isinstance_dict paper); cbn [negb]; [|apply IH].
    destruct (project_row paper) as [row|e]; cbn [mbind result_bind app]; [|reflexivity].
    rewrite (IH (acc ++ [row])), (IH [row]).
    destruct (project_loop rest []) as [rows|e]; cbn [mbind result_bind]; [|reflexivity].
    now rewrite <- app_assoc.
Qed.

Lemma project_loop_rows (papers rows : list pyval) :
  project_loop papers [] = Ok rows <->
  Forall2 (fun paper row => project_row paper = Ok row)
          (List.filter isinstance_dict papers) rows.
Proof.
  revert rows. induction papers as [|paper rest IH]; intros rows.
  - simpl. split; [intros [= <-]; constructor | intros H; now inversion H].
  - cbn [project_loop List.filter]. destruct (isinstance_dict paper); cbn [negb]; [|apply IH].
    split.
    + destruct (project_row paper) as [row|e] eqn:Hr; cbn [mbind result_bind];
        [|discriminate].
      rewrite project_loop_acc.
      destruct (project_loop rest []) as [rows'|e]; cbn [mbind result_bind]; [|discriminate].
      intros [= <-]. constructor; [exact Hr | now apply IH].
    + intros H. inversion H as [|p row ps rows' Hr Hrest]; subst.
      rewrite Hr. cbn [mbind result_bind].
      rewrite project_loop_acc, (proj2 (IH rows') Hrest). reflexivity.
Qed.

(** X14.  The loop of [main] yields the rows of the papers that are
    dictionaries, one row each and in the order of the papers; anything
    that is not a dictionary is passed over without a row. *)
Theorem one_row_per_paper (papers rows : list pyval) :
  project_loop papers [] = Ok rows <->
  Forall2 (fun paper row => project_row paper = Ok row)
          (List.filter isinstance_dict papers) rows.
Proof. exact (project_loop_rows papers rows). Qed.

Lemma one_row_per_paper_witness :
  Forall2 (fun paper row => project_row paper = Ok row)
          (List.filter isinstance_dict
             [PDict [("uid", PStr "1")]; PStr "skipped"; PDict [("uid", PStr "2")]])
          [report_row [("uid", PStr "1")] "N/A" "N/A";
           report_row [("uid", PStr "2")] "N/A" "N/A"].
Proof.
  exact (proj1 (one_row_per_paper
                  [PDict [("uid", PStr "1")]; PStr "skipped"; PDict [("uid", PStr "2")]]
                  [report_row [("uid", PStr "1")] "N/A" "N/A";
                   report_row [("uid", PStr "2")] "N/A" "N/A"]) eq_refl).
Defined.

(** ** Writing the report *)

Lemma write_rows_trace (results : list pyval) (tr : list event) :
  exists written, snd (write_rows results tr) = tr ++ written /\
                  forallb is_row_write written = true.
Proof.
  revert tr. induction results as [|row rest IH]; intros tr.
  - exists []. now rewrite app_nil_r.
  - cbn [write_rows]. unfold mbind, M_bind, lift, perform.
    destruct (row_cells row) as [cells|e]; [|exists []; now rewrite app_nil_r].
    destruct (forallb encodable cells); [|exists []; now rewrite app_nil_r].
    destruct (IH (tr ++ [WriteRow cells])) as [written [Hw Hf]].
    exists (WriteRow cells :: written). split; [|exact Hf].
    destruct (write_rows rest (tr ++ [WriteRow cells])) as [[u|e] tr'];
      cbn [snd] in *; rewrite Hw; now rewrite <- app_assoc.
Qed.


Lemma print_rows_trace (results : list pyval) (tr : list event) :
  print_rows results tr = (Ok tt, tr ++ List.map Print results).
Proof.
  revert tr. induction results as [|res rest IH]; intros tr.
  - simpl. now rewrite app_nil_r.
  - cbn [print_rows List.map]. unfold mbind, M_bind, perform.
    rewrite IH. now rewrite <- app_assoc.
Qed.

Lemma opened_file_events
    (open_file : str -> result unit) (results : list pyval) (filename : str)
    (tr : list event) :
  (forall e, open_file filename = Raise e ->
             write_to_csv open_file results filename tr = (Raise e, tr)) /\
  (open_file filename = Ok tt ->
   exists written,
     snd (write_to_csv open_file results filename tr)
     = tr ++ [Open filename] ++ written ++ [Close filename] /\
     forallb is_row_write written = true).
Proof.
  unfold write_to_csv. split; [intros e ->; reflexivity | intros ->].
  unfold mbind, M_bind, perform.
  destruct (write_rows_trace results
              ((tr ++ [Open filename]) ++ [WriteRow (List.map PStr FIELDNAMES)]))
    as [written [Hw Hf]].
  exists (WriteRow (List.map PStr FIELDNAMES) :: written). split; [|exact Hf].
  destruct (write_rows results _) as [r tr']. cbn [snd] in *. rewrite Hw.
  now rewrite <- !app_assoc.
Qed.

(** X15.  When opening the file raises, [write_to_csv] raises the same
    exception with nothing written.  A file that was opened is closed
    again on every way out, also when a row is refused or cannot be
    encoded half way: the trace is the opening, then lines written, then
    the closing. *)
Theorem opened_file_is_closed
    (open_file : str -> result unit) (results : list pyval) (filename : str)
    (tr : list event) :
  (forall e, open_file filename = Raise e ->
             write_to_csv open_file results filename tr = (Raise e, tr)) /\
  (open_file filename = Ok tt ->
   exists written,
     snd (write_to_csv open_file results filename tr)
     = tr ++ [Open filename] ++ written ++ [Close filename] /\
     forallb is_row_write written = true).
Proof. exact (opened_file_events open_file results filename tr). Qed.

Lemma opened_file_is_closed_witness :
  write_to_csv (fun _ => Raise ValueError) [] ("a" +:+ Chr 0 "b.csv") []
  = (Raise ValueError, []) /\
  exists written,
    snd (write_to_csv (fun _ => Ok tt)
           [PDict [("Title", PStr "T")]; PDict [("Title", PStr (Chr 55296 ""))];
            PDict [("Journal", PStr "J")]]
           "out.csv" [])
    = [] ++ [Open "out.csv"] ++ written ++ [Close "out.csv"] /\
    forallb is_row_write written = true.
Proof.
  split.
  - exact (proj1 (opened_file_is_closed (fun _ => Raise ValueError) []
                    ("a" +:+ Chr 0 "b.csv") []) ValueError eq_refl).
  - exact (proj2 (opened_file_is_closed (fun _ => Ok tt)
                    [PDict [("Title", PStr "T")]; PDict [("Title", PStr (Chr 55296 ""))];
                     PDict [("Journal", PStr "J")]]
                    "out.csv" []) eq_refl).
Defined.





(** ** The whole run *)

(** What is left of [main] once both network steps have answered. *)
Lemma main_after_retrieval
    (requests_get : str -> list (str * pyval) -> result response)
    (open_file : str -> result unit) (args : arguments)
    (ids : pyval) (papers : list pyval) (tr0 tr1 tr2 : list event) :
  fetch_paper_ids requests_get (query args) tr0 = (Ok ids, tr1) ->
  truthy ids = true ->
  fetch_paper_details requests_get ids tr1 = (Ok papers, tr2) ->
  main requests_get open_file args tr0
  = match project_loop papers [] with
    | Ok results =>
        match file args with
        | Some f =>
            if negb (str_eqb f "") then
              match write_to_csv open_file results f tr2 with
              | (Ok _, tr3) => (Ok tt, tr3 ++ [Print (PStr ("Results saved to " +:+ f))])
              | (Raise e, tr3) => (Raise e, tr3)
              end
            else print_rows results tr2
        | None => print_rows results tr2
        end
    | Raise e => (Raise e, tr2)
    end.
Proof.
  intros Hids Ht Hdet. unfold main.
  unfold mbind at 1. unfold M_bind at 1. rewrite Hids, Ht. cbn [negb].
  unfold mbind at 1. unfold M_bind at 1. rewrite Hdet.
  unfold mbind at 1. unfold M_bind at 1. unfold lift at 1.
  destruct (project_loop papers []) as [results|e]; [|reflexivity].
  destruct (file args) as [f|]; [|reflexivity].
  destruct (negb (str_eqb f "")); [|reflexivity].
  unfold mbind, M_bind, perform.
  destruct (write_to_csv open_file results f tr2) as [[u|e] tr3]; reflexivity.
Qed.

(** X17.  Without a file name, and equally with an empty one, a run whose
    two network steps and projection succeed prints the rows one by one,
    in order, after the two requests, and touches no file. *)
Theorem rows_are_printed
    (requests_get : str -> list (str * pyval) -> result response)
    (open_file : str -> result unit) (args : arguments)
    (ids : pyval) (papers rows : list pyval) (tr0 tr1 tr2 : list event) :
  fetch_paper_ids requests_get (query args) tr0 = (Ok ids, tr1) ->
  truthy ids = true ->
  fetch_paper_details requests_get ids tr1 = (Ok papers, tr2) ->
  project_loop papers [] = Ok rows ->
  file args = None \/ file args = Some "" ->
  main requests_get open_file args tr0 = (Ok tt, tr2 ++ List.map Print rows).
Proof.
  intros Hids Ht Hdet Hrows Hf.
  rewrite (main_after_retrieval _ open_file args ids papers tr0 tr1 tr2 Hids Ht Hdet), Hrows.
  destruct Hf as [-> | ->]; cbn [str_eqb negb]; apply print_rows_trace.
Qed.

Lemma rows_are_printed_witness :
  main (routing_server
          (PDict [("esearchresult", PDict [("idlist", PList [PStr "1"])])])
          (PDict [("result", PDict [("1", PDict [("uid", PStr "1")])])]))
       (fun _ => Ok tt) {| query := "q"; file := Some "" |} []
  = (Ok tt,
     [Get PUBMED_API_URL (search_params "q"); Get DETAILS_API_URL (details_params "1")]
     ++ List.map Print [report_row [("uid", PStr "1")] "N/A" "N/A"]).
Proof.
  exact (rows_are_printed
           (routing_server
              (PDict [("esearchresult", PDict [("idlist", PList [PStr "1"])])])
              (PDict [("result", PDict [("1", PDict [("uid", PStr "1")])])]))
           (fun _ => Ok tt) {| query := "q"; file := Some "" |}
           (PList [PStr "1"]) [PDict [("uid", PStr "1")]]
           [report_row [("uid", PStr "1")] "N/A" "N/A"] [] _ _
           eq_refl eq_refl eq_refl eq_refl (or_intror eq_refl)).
Defined.



(** X19.  Nothing is output before every row is built: when the
    projection of some paper raises, the run ends with that exception
    right after the two requests, with no row printed and, even when a
    file name was given, no file opened. *)
Theorem failed_projection_outputs_nothing
    (requests_get : str -> list (str * pyval) -> result response)
    (open_file : str -> result unit) (args : arguments)
    (ids : pyval) (papers : list pyval) (e : exn) (tr0 tr1 tr2 : list event) :
  fetch_paper_ids requests_get (query args) tr0 = (Ok ids, tr1) ->
  truthy ids = true ->
  fetch_paper_details requests_get ids tr1 = (Ok papers, tr2) ->
  project_loop papers [] = Raise e ->
  main requests_get open_file args tr0 = (Raise e, tr2).
Proof.
  intros Hids Ht Hdet Hrows.
  rewrite (main_after_retrieval _ open_file args ids papers tr0 tr1 tr2 Hids Ht Hdet).
  now rewrite Hrows.
Qed.

Lemma failed_projection_outputs_nothing_witness :
  main (routing_server
          (PDict [("esearchresult", PDict [("idlist", PList [PStr "1"; PStr "2"])])])
          (PDict [("result",
                   PDict [("1", PDict [("uid", PStr "1")]);
                          ("2", PDict [("uid", PStr "2");
                                       ("authors",
                                        PList [PDict [("affiliation", PStr "Acme")]])])])]))
       (fun _ => Ok tt) {| query := "q"; file := Some "out.csv" |} []
  = (Raise TypeError,
     [Get PUBMED_API_URL (search_params "q"); Get DETAILS_API_URL (details_params "1,2")]).
Proof.
  exact (failed_projection_outputs_nothing
           (routing_server
              (PDict [("esearchresult", PDict [("idlist", PList [PStr "1"; PStr "2"])])])
              (PDict [("result",
                       PDict [("1", PDict [("uid", PStr "1")]);
                              ("2", PDict [("uid", PStr "2");
                                           ("authors",
                                            PList [PDict [("affiliation", PStr "Acme")]])])])]))
           (fun _ => Ok tt) {| query := "q"; file := Some "out.csv" |}
           (PList [PStr "1"; PStr "2"]) _ TypeError [] _ _
           eq_refl eq_refl eq_refl eq_refl).
Defined.

(** X20.  When the output file cannot be opened the run ends with the
    exception of the opening (OSError for a path that cannot be written)
    after the two requests: the rows are neither written nor printed, and
    "Results saved to" is not printed. *)
Theorem unopenable_file_loses_rows
    (requests_get : str -> list (str * pyval) -> result response)
    (open_file : str -> result unit) (args : arguments) (f : str) (e : exn)
    (ids : pyval) (papers rows : list pyval) (tr0 tr1 tr2 : list event) :
  fetch_paper_ids requests_get (query args) tr0 = (Ok ids, tr1) ->
  truthy ids = true ->
  fetch_paper_details requests_get ids tr1 = (Ok papers, tr2) ->
  project_loop papers [] = Ok rows ->
  file args = Some f -> f <> "" -> open_file f = Raise e ->
  main requests_get open_file args tr0 = (Raise e, tr2).
Proof.
  intros Hids Ht Hdet Hrows Hf Hne Ho.
  rewrite (main_after_retrieval _ open_file args ids papers tr0 tr1 tr2 Hids Ht Hdet).
  rewrite Hrows, Hf, (string_eqb_empty f Hne). cbn [negb].
  unfold write_to_csv. now rewrite Ho.
Qed.

Lemma unopenable_file_loses_rows_witness :
  main (routing_server
          (PDict [("esearchresult", PDict [("idlist", PList [PStr "1"])])])
          (PDict [("result", PDict [("1", PDict [("uid", PStr "1")])])]))
       (fun _ => Raise OSError) {| query := "q"; file := Some "/no/such/dir/out.csv" |} []
  = (Raise OSError,
     [Get PUBMED_API_URL (search_params "q"); Get DETAILS_API_URL (details_params "1")]).
Proof.
  exact (unopenable_file_loses_rows
           (routing_server
              (PDict [("esearchresult", PDict [("idlist", PList [PStr "1"])])])
              (PDict [("result", PDict [("1", PDict [("uid", PStr "1")])])]))
           (fun _ => Raise OSError) {| query := "q"; file := Some "/no/such/dir/out.csv" |}
           "/no/such/dir/out.csv" OSError
           (PList [PStr "1"]) [PDict [("uid", PStr "1")]]
           [report_row [("uid", PStr "1")] "N/A" "N/A"] [] _ _
           eq_refl eq_refl eq_refl eq_refl eq_refl ltac:(discriminate) eq_refl).
Defined.

Lemma fetch_paper_details_trace
    (requests_get : str -> list (str * pyval) -> result response)
    (paper_ids : pyval) (tr : list event) :
  snd (fetch_paper_details requests_get paper_ids tr) = tr \/
  exists joined,
    snd (fetch_paper_details requests_get paper_ids tr)
    = tr ++ [Get DETAILS_API_URL (details_params joined)].
Proof.
  unfold fetch_paper_details. destruct (truthy paper_ids); cbn [negb]; [|now left].
  unfold mbind, M_bind, lift, http_get.
  destruct (py_iter paper_ids) as [items|e]; [|now left].
  destruct (expect_strs items) as [ids|e]; [|now left].
  right. exists (join "," ids).
  destruct (requests_get _ _) as [resp|e]; [|reflexivity].
  destruct (raise_for_status resp); [|reflexivity].
  destruct (json resp) as [data|e]; reflexivity.
Qed.

Lemma row_writes_are_no_requests (evs : list event) :
  forallb is_row_write evs = true -> List.filter is_request evs = [].
Proof.
  induction evs as [|e evs IH]; [reflexivity|].
  cbn [forallb]. rewrite andb_true_iff. intros [He Hevs].
  destruct e; try discriminate He. cbn. exact (IH Hevs).
Qed.

Lemma prints_are_no_requests (rows : list pyval) :
  List.filter is_request (List.map Print rows) = [].
Proof. induction rows as [|r rows IH]; [reflexivity | exact IH]. Qed.

Lemma write_to_csv_requests
    (open_file : str -> result unit) (results : list pyval) (f : str) (tr : list event) :
  List.filter is_request (snd (write_to_csv open_file results f tr))
  = List.filter is_request tr.
Proof.
  destruct (opened_file_events open_file results f tr) as [Hclosed Hopened].
  destruct (open_file f) as [[]|e] eqn:Ho.
  - destruct (Hopened eq_refl) as [written [-> Hw]].
    rewrite !List.filter_app, (row_writes_are_no_requests written Hw).
    cbn. now rewrite app_nil_r.
  - now rewrite (Hclosed e eq_refl).
Qed.

(** X21.  A run never makes more than two requests, whatever the network
    answers, whatever the arguments and however it ends: the requests in
    its trace are the search request alone, or the search request followed
    by one request to the details endpoint. *)
Theorem at_most_two_requests
    (requests_get : str -> list (str * pyval) -> result response)
    (open_file : str -> result unit) (args : arguments) :
  List.filter is_request (snd (main requests_get open_file args []))
  = [Get PUBMED_API_URL (search_params (query args))] \/
  exists joined,
    List.filter is_request (snd (main requests_get open_file args []))
    = [Get PUBMED_API_URL (search_params (query args));
       Get DETAILS_API_URL (details_params joined)].
Proof.
  pose proof (fetch_paper_ids_trace requests_get (query args) []) as Hs.
  destruct (fetch_paper_ids requests_get (query args) []) as [[ids|e] tr1] eqn:Hids;
    cbn [snd app] in Hs; subst tr1.
  2: { left. unfold main. unfold mbind at 1. unfold M_bind at 1. now rewrite Hids. }
  destruct (truthy ids) eqn:Ht.
  2: { left. unfold main. unfold mbind at 1. unfold M_bind at 1. now rewrite Hids, Ht. }
  pose proof (fetch_paper_details_trace requests_get ids
                [Get PUBMED_API_URL (search_params (query args))]) as Hd.
  destruct (fetch_paper_details requests_get ids _) as [[papers|e] tr2] eqn:Hdet;
    cbn [snd] in Hd.
  - assert (Hmain : List.filter is_request (snd (main requests_get open_file args []))
                    = List.filter is_request tr2).
    { rewrite (main_after_retrieval _ open_file args ids papers [] _ tr2 Hids Ht Hdet).
      destruct (project_loop papers []) as [rows|e]; [|reflexivity].
      assert (Hp : List.filter is_request (snd (print_rows rows tr2))
                   = List.filter is_request tr2).
      { rewrite print_rows_trace. cbn [snd].
        now rewrite List.filter_app, prints_are_no_requests, app_nil_r. }
      destruct (file args) as [f|]; [|exact Hp].
      destruct (negb (str_eqb f "")); [|exact Hp].
      pose proof (write_to_csv_requests open_file rows f tr2) as Hw.
      destruct (write_to_csv open_file rows f tr2) as [[u|e] tr3]; cbn [snd] in *;
        [|exact Hw].
      rewrite List.filter_app. cbn. now rewrite app_nil_r. }
    rewrite Hmain.
    destruct Hd as [-> | [joined ->]]; [now left | right; now exists joined].
  - assert (Hmain : snd (main requests_get open_file args []) = tr2).
    { unfold main. unfold mbind at 1. unfold M_bind at 1. rewrite Hids, Ht. cbn [negb].
      unfold mbind at 1. unfold M_bind at 1. now rewrite Hdet. }
    rewrite Hmain.
    destruct Hd as [-> | [joined ->]]; [now left | right; now exists joined].
Qed.
